(** * ScorAI client: a shallow embedding of the presentation layer

    The repository holds the Next.js client of ScorAI: an API client
    ([lib/api.ts]), a session store, and the onboarding, dashboard, triggers,
    credit and leaderboard pages.  Each module below embeds one of them:
    handlers become functions on an explicit page state, a backend call is an
    outcome supplied by the environment ([Ok] or [Throw]), and JavaScript
    numbers are IEEE binary64 floats.

    The ledger, scoring and ingestion engine the client talks to is not part
    of the sources; modules [Engine] and [Ledger] model the pieces of it
    that the properties below need, from the written specification. *)

From Stdlib Require Import ZArith Floats Ascii Lia.
From stdpp Require Import gmap strings list pretty.

#[local] Set Warnings "-inexact-float,-register-all".
#[local] Open Scope Z_scope.

(** ** JavaScript values and control flow *)

Module JS.

(** A JavaScript [number] is a binary64 float. *)
Definition number : Type := float.
Bind Scope float_scope with number.

(** The number an integer literal denotes, for [|n| < 2^53]. *)
Definition number_of_Z (n : Z) : number :=
  if n <? 0 then (- PrimFloat.of_uint63 (Uint63.of_Z (- n)))%float
  else PrimFloat.of_uint63 (Uint63.of_Z n).

(** The exact integer [floor (m * 2^e + 1/2)] for a signed mantissa [m]. *)
Definition round_half_up (m e : Z) : Z :=
  if 0 <=? e then m * 2 ^ e
  else (2 * m + 2 ^ (- e)) / 2 ^ (- e + 1).

(** The exact integer [floor (m * 2^e)]. *)
Definition floor_scaled (m e : Z) : Z :=
  if 0 <=? e then m * 2 ^ e else m / 2 ^ (- e).

Definition signed (s : bool) (m : positive) : Z :=
  if s then Z.neg m else Z.pos m.

(** [Math.round]: the integer nearest to [x], ties towards +infinity; NaN,
    the infinities and the zeros are returned as they are, and a negative
    argument that rounds to zero gives -0. *)
Definition Math_round (x : number) : number :=
  match Prim2SF x with
  | S754_finite s m e =>
      if 0 <=? e then x
      else
        let n := round_half_up (signed s m) e in
        if (n =? 0) && s then (-0)%float else number_of_Z n
  | _ => x
  end.

(** [Math.floor]. *)
Definition Math_floor (x : number) : number :=
  match Prim2SF x with
  | S754_finite s m e =>
      if 0 <=? e then x else number_of_Z (floor_scaled (signed s m) e)
  | _ => x
  end.

(** The integer a number denotes, when it is one. *)
Definition number_to_Z (x : number) : option Z :=
  match Prim2SF x with
  | S754_zero _ => Some 0
  | S754_finite s m e =>
      if 0 <=? e then Some (signed s m * 2 ^ e)
      else if (signed s m) mod 2 ^ (- e) =? 0
           then Some (signed s m / 2 ^ (- e)) else None
  | _ => None
  end.

(** Truthiness of the values the client tests with [!], [||] and [if]. *)
Definition truthy_number (x : number) : bool :=
  PrimFloat.eqb x x && negb (PrimFloat.eqb x 0).

Definition truthy_string (s : string) : bool :=
  negb (String.eqb s "").

(** [s || d] on strings. *)
Definition or_string (s d : string) : string :=
  if truthy_string s then s else d.

(** What an [await]ed call gives: a value, or a thrown exception. *)
Inductive result (E A : Type) : Type :=
  | Ok (a : A)
  | Throw (e : E).
Arguments Ok {E A} a.
Arguments Throw {E A} e.

#[global] Instance result_ret {E} : MRet (result E) := fun A a => Ok a.

#[global] Instance result_bind {E} : MBind (result E) := fun A B k r =>
  match r with
  | Ok a => k a
  | Throw e => Throw e
  end.

(** [p.catch(h)] and [try { p } catch { h }]. *)
Definition catch {E A} (r : result E A) (h : E -> result E A) : result E A :=
  match r with
  | Ok a => Ok a
  | Throw e => h e
  end.

Definition is_ok {E A} (r : result E A) : bool :=
  match r with Ok _ => true | Throw _ => false end.

(** A value as [JSON.parse] builds it, with [undefined] for a property
    that is not there. *)
Inductive value : Type :=
  | VUndefined
  | VNull
  | VBool (b : bool)
  | VNumber (x : number)
  | VString (s : string)
  | VArray (items : list value)
  | VObject (props : gmap string value).

Definition truthy (v : value) : bool :=
  match v with
  | VUndefined | VNull => false
  | VBool b => b
  | VNumber x => truthy_number x
  | VString s => truthy_string s
  | VArray _ | VObject _ => true
  end.

(** What the client's code can see thrown. [Error v] is [new Error(v)]: its
    message is [v] converted to a string, [v] itself when it is one. *)
Inductive exn : Type :=
  | Error (message : value)
  | TypeError
  | SyntaxError
  | NetworkError.

(** [v.k] for a key [k] that no prototype defines (the client reads
    [detail] and [message]): reading a property of [null] or [undefined]
    throws, a primitive or an array has no such property. *)
Definition get (v : value) (k : string) : result exn value :=
  match v with
  | VUndefined | VNull => Throw TypeError
  | VObject props => Ok (default VUndefined (props !! k))
  | _ => Ok VUndefined
  end.

(** The decimal text of a number that is an integer, as [+] and template
    strings produce it. *)
Definition integer_to_string (x : number) : string :=
  from_option pretty "NaN" (number_to_Z x).

Definition upper (c : ascii) : ascii :=
  let n := N_of_ascii c in
  if ((97 <=? n) && (n <=? 122))%N then ascii_of_N (n - 32) else c.

(** [s.toUpperCase()], on the ASCII letters. *)
Fixpoint toUpperCase (s : string) : string :=
  match s with
  | EmptyString => EmptyString
  | String c s' => String (upper c) (toUpperCase s')
  end.

(** [s.slice(from, to)] for [0 <= from <= to], counted like
    [toUpperCase] on ASCII text. *)
Definition slice (from to : nat) (s : string) : string :=
  String.substring from (to - from) s.

End JS.

Export JS.

(** ** The API client ([frontend/src/lib/api.ts], lines 1 to 142) *)

Module Api.

Record RequestInit := {
  method : option string;
  headers : option (gmap string string);
  body : option value;
}.

Record FetchCall := {
  url : string;
  init : RequestInit;
}.

Record Response := {
  ok : bool;
  status : number;
  json : result exn value;
}.

(** [process.env.NEXT_PUBLIC_API_URL || "http://localhost:8000/api/v1"] *)
Definition API_BASE (NEXT_PUBLIC_API_URL : option string) : string :=
  or_string (default "" NEXT_PUBLIC_API_URL) "http://localhost:8000/api/v1".

Definition content_type : gmap string string :=
  {[ "Content-Type" := "application/json" ]}.

Section Request.

Variable NEXT_PUBLIC_API_URL : option string.
Variable fetch : FetchCall -> result exn Response.

(** The arguments [request] gives to [fetch]: the merged headers first,
    then every property of [options] spread over them. *)
Definition fetch_call (path : string) (options : option RequestInit)
  : FetchCall :=
  let merged := default ∅ (options ≫= headers) ∪ content_type in
  {| url := API_BASE NEXT_PUBLIC_API_URL +:+ path;
     init :=
       {| method := options ≫= method;
          headers := Some (default merged (options ≫= headers));
          body := options ≫= body |} |}.

Definition server_error : value :=
  VObject {[ "message" := VString "Erreur serveur" ]}.

(** [err.detail || err.message || `Erreur ${res.status}`] *)
Definition error_message (err : value) (status : number)
  : result exn value :=
  detail ← get err "detail";
  if truthy detail then Ok detail
  else
    message ← get err "message";
    if truthy message then Ok message
    else Ok (VString ("Erreur " +:+ integer_to_string status)).

(** What [request] does with the response once [fetch] has resolved. *)
Definition handle_response (res : Response) : result exn value :=
  if negb (ok res) then
    err ← catch (json res) (fun _ => Ok server_error);
    msg ← error_message err (status res);
    Throw (Error msg)
  else json res.

Definition request (path : string) (options : option RequestInit)
  : result exn value :=
  res ← fetch (fetch_call path options);
  handle_response res.

Definition post (data : value) : option RequestInit :=
  Some {| method := Some "POST"; headers := None; body := Some data |}.

Definition with_method (m : string) : option RequestInit :=
  Some {| method := Some m; headers := None; body := None |}.

Definition signup (data : value) := request "/auth/signup" (post data).
Definition getUser (userId : string) :=
  request ("/auth/user/" +:+ userId) None.
Definition submitKYC (data : value) := request "/auth/kyc" (post data).

Definition getBalance (userId : string) :=
  request ("/wallet/balance/" +:+ userId) None.
Definition getHistory (userId : string) :=
  request ("/wallet/history/" +:+ userId) None.
Definition getBatchStatus (userId : string) :=
  request ("/wallet/batch-status/" +:+ userId) None.

Definition createTrigger (data : value) :=
  request "/triggers/create" (post data).
Definition getMyTriggers (userId : string) :=
  request ("/triggers/mine/" +:+ userId) None.
Definition getTeams := request "/triggers/teams" None.
Definition pauseTrigger (triggerId userId : string) :=
  request ("/triggers/pause/" +:+ triggerId +:+ "?user_id=" +:+ userId)
    (with_method "PUT").
Definition deleteTrigger (triggerId userId : string) :=
  request ("/triggers/" +:+ triggerId +:+ "?user_id=" +:+ userId)
    (with_method "DELETE").

Definition getScore (userId : string) :=
  request ("/score/" +:+ userId) None.

Definition applyForLoan (data : value) :=
  request "/loans/apply" (post data).
Definition getLoanStatus (loanId : string) :=
  request ("/loans/status/" +:+ loanId) None.
Definition getUserLoans (userId : string) :=
  request ("/loans/user/" +:+ userId) None.
Definition repayLoan (data : value) := request "/loans/repay" (post data).

Definition getDashboard := request "/analytics/dashboard" None.
Definition getLeaderboard := request "/analytics/leaderboard" None.

End Request.

(** The HTTP method of a call: [fetch] sends GET when [init] names none. *)
Definition http_method (c : FetchCall) : string :=
  default "GET" (method (init c)).

(** The own property [k] of a value, when it has one. *)
Definition field (v : value) (k : string) : option value :=
  match v with
  | VObject props => props !! k
  | _ => None
  end.

(** The error message as the description of [request] words it: the
    body's [detail] field if present, else its [message] field, else
    "Erreur " and the status code; "Erreur serveur" for a body that is not
    JSON. *)
Definition stated_error_message (body : result exn value) (status : number)
  : value :=
  match body with
  | Throw _ => VString "Erreur serveur"
  | Ok err =>
      match field err "detail", field err "message" with
      | Some d, _ => d
      | None, Some m => m
      | None, None => VString ("Erreur " +:+ integer_to_string status)
      end
  end.

(** The balance query as the REST contract words it. *)
Definition contract_method : string := "POST".
Definition contract_path : string := "/wallet".
Definition contract_fields : list string :=
  [ "virtual_balance"; "confirmed_balance"; "pending_settlement";
    "total_saved"; "current_streak_days"; "longest_streak_days" ].

(** The fields of the object [getBalance] is declared to resolve to. *)
Definition getBalance_fields : list string :=
  [ "user_id"; "virtual_balance_fcfa"; "confirmed_balance_fcfa";
    "pending_settlement_fcfa"; "total_saved_fcfa"; "current_streak_days";
    "longest_streak_days" ].

(** The message [request] puts in the [Error] it throws, for an error body
    that is neither [null] nor [undefined]: the first truthy one of its
    [detail], its [message] and the status line. *)
Definition chosen_message (err : value) (status : number) : value :=
  let detail := default VUndefined (field err "detail") in
  let message := default VUndefined (field err "message") in
  if truthy detail then detail
  else if truthy message then message
  else VString ("Erreur " +:+ integer_to_string status).


(** A server that answers every call with the method and the address it
    was called with. *)
Definition echo (c : FetchCall) : result exn Response :=
  Ok {| ok := true; status := 200;
        json := Ok (VObject {[ "method" := VString (http_method c);
                               "url" := VString (url c) ]}) |}.



(** A server that answers every call with status 404 and FastAPI's usual
    body. *)
Definition not_found (c : FetchCall) : result exn Response :=
  Ok {| ok := false; status := 404;
        json := Ok (VObject {[ "detail" := VString "Not Found" ]}) |}.



(** A server that answers every call with status 422 and a body whose
    [detail] is an empty list. *)
Definition empty_list_detail (c : FetchCall) : result exn Response :=
  Ok {| ok := false; status := 422;
        json := Ok (VObject {[ "detail" := VArray [] ]}) |}.

End Api.


(** ** The session store ([frontend/src/lib/api.ts], lines 143 to 198) *)

Module Session.

Record UserSession := {
  userId : option string;
  displayName : option string;
  referralCode : option string;
}.

Definition SESSION_KEY : string := "scorai_session".

Definition no_session : UserSession :=
  {| userId := None; displayName := None; referralCode := None |}.

(** The provider's state and the browser's [localStorage]. The stored text
    is [JSON.stringify s]; the map keeps the session that text denotes, and
    writing to it always succeeds. *)
Record Store := {
  session : UserSession;
  localStorage : gmap string UserSession;
}.

Definition setSession (s : UserSession) (st : Store) : Store :=
  {| session := s; localStorage := <[SESSION_KEY := s]> (localStorage st) |}.

Definition clearSession (st : Store) : Store :=
  {| session := no_session;
     localStorage := delete SESSION_KEY (localStorage st) |}.

(** The effect run on mount. *)
Definition restore (st : Store) : Store :=
  match localStorage st !! SESSION_KEY with
  | Some s => {| session := s; localStorage := localStorage st |}
  | None => st
  end.

(** [session.userId] used as a condition: [null] and the empty string are
    both falsy. *)
Definition logged_in (s : UserSession) : option string :=
  match userId s with
  | Some uid => if truthy_string uid then Some uid else None
  | None => None
  end.

End Session.

(** ** The onboarding page ([frontend/src/lib/api.ts], from line 199) *)

Module Onboarding.

Import Session.

Record Team := {
  id : number;
  name : string;
  league : string;
  logo : string;
}.

Definition TEAMS : list Team :=
  [ {| id := 42; name := "Arsenal"; league := "Premier League"; logo := "🔴" |};
    {| id := 50; name := "Man City"; league := "Premier League"; logo := "🔵" |};
    {| id := 85; name := "PSG"; league := "Ligue 1"; logo := "🔵🔴" |};
    {| id := 541; name := "Real Madrid"; league := "La Liga"; logo := "⚪" |};
    {| id := 529; name := "Barcelona"; league := "La Liga"; logo := "🔴🔵" |};
    {| id := 40; name := "Liverpool"; league := "Premier League"; logo := "🔴" |};
    {| id := 838; name := "Coton Sport"; league := "Elite One 🇨🇲"; logo := "🟢" |};
    {| id := 839; name := "Canon Ydé"; league := "Elite One 🇨🇲"; logo := "🟡" |} ].

(** The body of [api.signup] and of [api.createTrigger]. *)
Record SignupData := {
  phone_number : string;
  display_name : string;
  favorite_team_id : option number;
  favorite_team_name : option string;
  referral_code_used : option string;
}.

Record SignupResponse := {
  user_id : string;
  referral_code : string;
  message : string;
}.

Record TriggerData := {
  trigger_user_id : string;
  team_id : number;
  team_name : string;
  event_type : string;
  amount_fcfa : number;
}.

Record Page := {
  step : number;
  user_name : string;
  phone : string;
  selectedTeam : option Team;
  selectedEvent : string;
  amount : number;
  loading : bool;
  error : string;
}.

Definition initial : Page :=
  {| step := 1; user_name := ""; phone := ""; selectedTeam := None;
     selectedEvent := "WIN"; amount := 1000; loading := false; error := "" |}.

Inductive ApiCall :=
  | CallSignup (data : SignupData)
  | CallCreateTrigger (data : TriggerData).

(** Everything [handleComplete] can change: the page, the session store,
    the address the window shows, and the calls sent to the backend. *)
Record World := {
  page : Page;
  store : Store;
  location : string;
  calls : list ApiCall;
}.

(** What the handler reads from outside: the clock, the random generator
    and the backend's answers. *)
Record Env := {
  now : number;
  random : number;
  signup : SignupData -> result exn SignupResponse;
  createTrigger : TriggerData -> result exn value;
}.

Definition set_loading (b : bool) (p : Page) : Page :=
  {| step := step p; user_name := user_name p; phone := phone p;
     selectedTeam := selectedTeam p; selectedEvent := selectedEvent p;
     amount := amount p; loading := b; error := error p |}.

Definition set_error (e : string) (p : Page) : Page :=
  {| step := step p; user_name := user_name p; phone := phone p;
     selectedTeam := selectedTeam p; selectedEvent := selectedEvent p;
     amount := amount p; loading := loading p; error := e |}.

(** The local variables [userId] and [referralCode]. *)
Record Locals := {
  l_userId : string;
  l_referralCode : string;
}.

(** The identifiers the demo path makes up.  The referral code is the
    one the page computes for a name whose first two characters are ASCII;
    on other names [toUpperCase] and [slice] above differ from
    JavaScript's. *)
Definition demo_locals (env : Env) (p : Page) : Locals :=
  {| l_userId := "demo_" +:+ integer_to_string (now env);
     l_referralCode :=
       "SCOR" +:+ toUpperCase (slice 0 2 (user_name p))
       +:+ integer_to_string (Math_floor (random env * 99)%float) |}.

Definition signup_data (p : Page) (team : Team) : SignupData :=
  {| phone_number := phone p; display_name := user_name p;
     favorite_team_id := Some (id team);
     favorite_team_name := Some (name team);
     referral_code_used := None |}.

Definition trigger_data (p : Page) (team : Team) (uid : string)
  : TriggerData :=
  {| trigger_user_id := uid; team_id := id team; team_name := name team;
     event_type := selectedEvent p; amount_fcfa := amount p |}.

(** The [try] block: the locals as it leaves them, the calls it made, and
    how it ended. The two assignments come before [createTrigger], whose
    own [.catch] swallows its failure. *)
Definition try_block (env : Env) (p : Page) (team : Team) (l : Locals)
  : Locals * list ApiCall * result exn unit :=
  match signup env (signup_data p team) with
  | Throw e => (l, [CallSignup (signup_data p team)], Throw e)
  | Ok r =>
      let l' := {| l_userId := user_id r; l_referralCode := referral_code r |} in
      let data := trigger_data p team (l_userId l') in
      (l', [CallSignup (signup_data p team); CallCreateTrigger data],
       _ ← catch (createTrigger env data) (fun _ => Ok VUndefined); mret tt)
  end.

Definition handleComplete (env : Env) (w : World) : World :=
  match selectedTeam (page w) with
  | None => w
  | Some team =>
      let p := set_error "" (set_loading true (page w)) in
      let '(l, sent, _) := try_block env p team (demo_locals env p) in
      {| page := set_loading false p;
         store :=
           setSession
             {| userId := Some (l_userId l);
                displayName := Some (user_name p);
                referralCode := Some (l_referralCode l) |}
             (store w);
         location := "/dashboard";
         calls := calls w ++ sent |}
  end.

(** *** Worlds used as examples *)

Definition arsenal : Team :=
  {| id := 42; name := "Arsenal"; league := "Premier League"; logo := "🔴" |}.

(** The page at step 3, a team chosen. *)
Definition ready : World :=
  {| page :=
       {| step := 3; user_name := "jean"; phone := "677000111";
          selectedTeam := Some arsenal; selectedEvent := "GOAL";
          amount := 1500; loading := false; error := "" |};
     store := {| session := no_session; localStorage := ∅ |};
     location := "/onboarding";
     calls := [] |}.

(** A backend that is down. *)
Definition offline : Env :=
  {| now := 1700000000000; random := 0.5;
     signup := fun _ => Throw NetworkError;
     createTrigger := fun _ => Throw NetworkError |}.

(** A backend that signs the user up and then fails to create the
    trigger. *)
Definition half_up : Env :=
  {| now := 1700000000000; random := 0.5;
     signup := fun _ =>
       Ok {| user_id := "u-77"; referral_code := "SCORJE12";
             message := "ok" |};
     createTrigger := fun _ => Throw (Error (VString "Erreur 500")) |}.

End Onboarding.

(** ** The dashboard page ([unnamed/part_000]) *)

Module Dashboard.

Import Session.

Record Wallet := {
  virtual_balance_fcfa : number;
  confirmed_balance_fcfa : number;
  pending_settlement_fcfa : number;
  total_saved_fcfa : number;
  current_streak_days : number;
}.

Record Score := {
  trust_score : number;
  tier_label : string;
  max_loan_fcfa : number;
}.

Record TriggerCard := {
  id : string;
  team_name : string;
  event_type : string;
  amount_fcfa : number;
  times_triggered : number;
  trigger_total_saved_fcfa : number;
  status : string;
}.

Record HistoryItem := {
  trigger_event : string;
  history_amount_fcfa : number;
  created_at : string;
}.

Module FALLBACK.
Definition wallet : Wallet :=
  {| virtual_balance_fcfa := 47500; confirmed_balance_fcfa := 35000;
     pending_settlement_fcfa := 12500; total_saved_fcfa := 127000;
     current_streak_days := 34 |}.
Definition score : Score :=
  {| trust_score := 562; tier_label := "Confirmé"; max_loan_fcfa := 15000 |}.
Definition triggers : list TriggerCard :=
  [ {| id := "1"; team_name := "Arsenal"; event_type := "WIN";
       amount_fcfa := 1000; times_triggered := 12;
       trigger_total_saved_fcfa := 12000; status := "ACTIVE" |} ].
Definition history : list HistoryItem :=
  [ {| trigger_event := "Arsenal WIN vs Chelsea";
       history_amount_fcfa := 1000; created_at := "Aujourd'hui" |};
    {| trigger_event := "Arsenal GOAL (Saka)";
       history_amount_fcfa := 500; created_at := "Aujourd'hui" |} ].
End FALLBACK.

Record Page := {
  loading : bool;
  wallet : Wallet;
  score : Score;
  triggers : list TriggerCard;
  history : list HistoryItem;
  displayName : string;
  referralCode : string;
}.

Definition initial : Page :=
  {| loading := true; wallet := FALLBACK.wallet; score := FALLBACK.score;
     triggers := FALLBACK.triggers; history := FALLBACK.history;
     displayName := "Utilisateur"; referralCode := "SCORAI42" |}.

(** The backend's answers to the four queries of the page. *)
Record Env := {
  getBalance : string -> result exn Wallet;
  getScore : string -> result exn Score;
  getMyTriggers : string -> result exn (list TriggerCard);
  getHistory : string -> result exn (list HistoryItem);
}.

(** [Promise.all] of the four queries: the last three carry their own
    [.catch], so only a failed balance query rejects the whole. *)
Definition fetch_all (env : Env) (uid : string)
  : result exn (Wallet * Score * list TriggerCard * list HistoryItem) :=
  w ← getBalance env uid;
  s ← catch (getScore env uid) (fun _ => Ok FALLBACK.score);
  t ← catch (getMyTriggers env uid) (fun _ => Ok FALLBACK.triggers);
  h ← catch (getHistory env uid) (fun _ => Ok FALLBACK.history);
  mret (w, s, t, h).

(** The effect that loads the page for a session. *)
Definition load (env : Env) (s : UserSession) (p : Page) : Page :=
  match logged_in s with
  | None =>
      {| loading := false; wallet := wallet p; score := score p;
         triggers := triggers p; history := history p;
         displayName := displayName p; referralCode := referralCode p |}
  | Some uid =>
      let name := or_string (default "" (Session.displayName s)) "Utilisateur" in
      let code := or_string (default "" (Session.referralCode s)) "SCORAI42" in
      match fetch_all env uid with
      | Ok (w, sc, t, h) =>
          {| loading := false; wallet := w; score := sc; triggers := t;
             history := h; displayName := name; referralCode := code |}
      | Throw _ =>
          {| loading := false; wallet := wallet p; score := score p;
             triggers := triggers p; history := history p;
             displayName := name; referralCode := code |}
      end
  end.


End Dashboard.

(** ** The triggers page ([frontend/src/app/triggers/page.tsx]) *)

Module Triggers.

Import Session.

Record Trigger := {
  id : string;
  team_name : string;
  event_type : string;
  amount_fcfa : number;
  times_triggered : number;
  total_saved_fcfa : number;
  status : string;
}.

Definition DEMO_TRIGGERS : list Trigger :=
  [ {| id := "demo1"; team_name := "Arsenal"; event_type := "WIN";
       amount_fcfa := 1000; times_triggered := 12; total_saved_fcfa := 12000;
       status := "ACTIVE" |};
    {| id := "demo2"; team_name := "Arsenal"; event_type := "GOAL";
       amount_fcfa := 500; times_triggered := 28; total_saved_fcfa := 14000;
       status := "ACTIVE" |} ].

(** [{ ...tr, status: s }] *)
Definition with_status (tr : Trigger) (s : string) : Trigger :=
  {| id := id tr; team_name := team_name tr; event_type := event_type tr;
     amount_fcfa := amount_fcfa tr; times_triggered := times_triggered tr;
     total_saved_fcfa := total_saved_fcfa tr; status := s |}.

Definition toggled (tr : Trigger) : Trigger :=
  with_status tr (if String.eqb (status tr) "ACTIVE" then "PAUSED" else "ACTIVE").

(** A call [api.pauseTrigger(triggerId, userId)] sent and not awaited. *)
Record PauseCall := {
  pause_trigger_id : string;
  pause_user_id : string;
}.

Record Page := {
  triggers : list Trigger;
  sent : list PauseCall;
}.

Definition initial : Page := {| triggers := DEMO_TRIGGERS; sent := [] |}.

(** The list [togglePause t] hands to [setTriggers]; the page renders
    again before the next click, so each call starts from the list the
    previous one set. *)
Definition toggle_list (l : list Trigger) (t : Trigger) : list Trigger :=
  (fun tr => if String.eqb (id tr) (id t) then toggled tr else tr) <$> l.

Definition togglePause (s : UserSession) (t : Trigger) (p : Page) : Page :=
  {| triggers := toggle_list (triggers p) t;
     sent :=
       match logged_in s with
       | Some uid =>
           sent p ++ [ {| pause_trigger_id := id t; pause_user_id := uid |} ]
       | None => sent p
       end |}.

(** [activeCount] *)
Definition activeCount (l : list Trigger) : nat :=
  length (filter (fun t => status t = "ACTIVE") l).

(** A trigger in the third lifecycle state of a rule. *)
Definition deleted_trigger : Trigger :=
  {| id := "t9"; team_name := "PSG"; event_type := "DRAW";
     amount_fcfa := 500; times_triggered := 3; total_saved_fcfa := 1500;
     status := "DELETED" |}.

(** Every trigger that [t] designates is active or paused. *)
Definition two_state (l : list Trigger) (t : Trigger) : Prop :=
  forall tr, tr ∈ l -> id tr = id t ->
    status tr = "ACTIVE" \/ status tr = "PAUSED".

(** The first demo trigger, as the list renders it. *)
Definition first_demo : Trigger :=
  {| id := "demo1"; team_name := "Arsenal"; event_type := "WIN";
     amount_fcfa := 1000; times_triggered := 12; total_saved_fcfa := 12000;
     status := "ACTIVE" |}.

End Triggers.

(** ** The credit page ([frontend/src/app/leaderboard/page.tsx], from line 126) *)

Module Credit.

Import Session.

Record Explanation := {
  feature : string;
  impact : number;
  direction : string;
  description : string;
}.

Record Score := {
  trust_score : number;
  tier : string;
  tier_label : string;
  max_loan_fcfa : number;
  explanations : list Explanation;
}.

Definition FALLBACK_SCORE : Score :=
  {| trust_score := 562; tier := "MICRO"; tier_label := "Confirmé";
     max_loan_fcfa := 15000;
     explanations :=
       [ {| feature := "savings_discipline"; impact := 0.72;
            direction := "positive"; description := "Discipline d'épargne" |};
         {| feature := "momo_activity"; impact := 0.55;
            direction := "positive"; description := "Activité MoMo" |};
         {| feature := "telecom_stability"; impact := 0.61;
            direction := "positive"; description := "Stabilité Télécom" |};
         {| feature := "behavioral_score"; impact := 0.45;
            direction := "neutral"; description := "Comportement" |} ] |}.

Record TierRow := {
  name : string;
  range : string;
  max : string;
}.

Definition TIERS : list TierRow :=
  [ {| name := "Débutant"; range := "0 – 399"; max := "0 FCFA" |};
    {| name := "Confirmé"; range := "400 – 599"; max := "15 000 FCFA" |};
    {| name := "Expert"; range := "600 – 799"; max := "75 000 FCFA" |};
    {| name := "Élite"; range := "800 – 1000"; max := "200 000 FCFA" |} ].

(** The keys of [ICONS], in the order the object literal lists them. *)
Definition ICONS : list (string * string) :=
  [ ("savings_discipline", "💰"); ("momo_activity", "📱");
    ("telecom_stability", "📶"); ("behavioral_score", "🎯") ].

(** The declared result of [api.applyForLoan]; the page keeps the object
    it receives as its [result]. *)
Record LoanResponse := {
  approved : bool;
  loan_id : option string;
  amount_fcfa : option number;
  total_due : option number;
  interest_fcfa : option number;
  reason : option string;
  message : option string;
}.

Record LoanRequest := {
  user_id : string;
  requested_fcfa : number;
}.

Record Page := {
  loading : bool;
  score : Score;
  amount : number;
  applying : bool;
  result : option LoanResponse;
  (** delays, in milliseconds, of the [setTimeout] callbacks not yet run *)
  timers : list number;
}.

Definition initial : Page :=
  {| loading := true; score := FALLBACK_SCORE; amount := 10000;
     applying := false; result := None; timers := [] |}.

Record Env := {
  getScore : string -> JS.result exn Score;
  applyForLoan : LoanRequest -> JS.result exn LoanResponse;
}.

(** The effect that loads the score. *)
Definition load (env : Env) (s : UserSession) (p : Page) : Page :=
  {| loading := false;
     score :=
       match logged_in s with
       | Some uid =>
           match getScore env uid with Ok sc => sc | Throw _ => score p end
       | None => score p
       end;
     amount := amount p; applying := applying p; result := result p;
     timers := timers p |}.

Definition interestRate : number := 0.10.
Definition interest (amount : number) : number :=
  Math_round (amount * interestRate)%float.
Definition total (amount : number) : number :=
  (amount + interest amount)%float.

(** The rows of the simulator panel, each a label and what it shows. *)
Inductive Cell :=
  | Amount (x : number)
  | Text (s : string).

Definition simulator (amount : number) : list (string * Cell) :=
  [ ("Intérêts (10%)", Amount (interest amount));
    ("Durée", Text "30 jours");
    ("Total à rembourser", Amount (total amount)) ].

(** [TIERS.find(t => t.name === score.tier_label) || TIERS[1]] *)
Definition activeTier (sc : Score) : option TierRow :=
  match find (fun t => String.eqb (name t) (tier_label sc)) TIERS with
  | Some t => Some t
  | None => TIERS !! 1%nat
  end.

(** The [k]-th stop of the range input ([min] 1000, [step] 1000). *)
Definition slider_amount (k : Z) : number := number_of_Z (1000 * k).

Definition demo_result (now : number) : LoanResponse :=
  {| approved := true;
     loan_id := Some ("demo_loan_" +:+ integer_to_string now);
     amount_fcfa := None; total_due := None; interest_fcfa := None;
     reason := None;
     message := Some "Prêt simulé approuvé (mode démo)" |}.

Definition set_result (r : option LoanResponse) (applying' : bool)
    (timers' : list number) (p : Page) : Page :=
  {| loading := loading p; score := score p; amount := amount p;
     applying := applying'; result := r; timers := timers' |}.

(** [handleApply], up to its return: either the backend's answer is
    stored, or the demo approval is scheduled 1500 ms later. *)
Definition handleApply (env : Env) (s : UserSession) (p : Page) : Page :=
  let demo := set_result (result p) true (timers p ++ [1500%float]) p in
  match logged_in s with
  | Some uid =>
      match applyForLoan env {| user_id := uid; requested_fcfa := amount p |} with
      | Ok res => set_result (Some res) false (timers p) p
      | Throw _ => demo
      end
  | None => demo
  end.

(** The callback given to [setTimeout], run at time [now]. *)
Definition run_timer (now : number) (p : Page) : Page :=
  match timers p with
  | [] => p
  | _ :: rest => set_result (Some (demo_result now)) false rest p
  end.

(** [handleApply] followed by the scheduled callback, if any. *)
Definition handleApply_settled (env : Env) (now : number)
    (s : UserSession) (p : Page) : Page :=
  run_timer now (handleApply env s p).

(** The bar shown for one explanation: its label, its colour class and
    its percentage. *)
Definition bar (e : Explanation) : string * string * number :=
  let v := impact e in
  (description e,
   if PrimFloat.leb 0.7 v then "fill-emerald"
   else if PrimFloat.leb 0.5 v then "fill-gold" else "fill-danger",
   Math_round (v * 100)%float).

(** [score.explanations.map(...)] *)
Definition bars (sc : Score) : list (string * string * number) :=
  bar <$> explanations sc.

(** *** Reading the display strings of [TIERS] *)

Definition is_digit (c : ascii) : bool :=
  let n := N_of_ascii c in ((48 <=? n) && (n <=? 57))%N.

Fixpoint strip_spaces (s : string) : string :=
  match s with
  | EmptyString => EmptyString
  | String c s' =>
      if Ascii.eqb c " " then strip_spaces s' else String c (strip_spaces s')
  end.

Fixpoint read_digits (acc : Z) (s : string) : Z * string :=
  match s with
  | EmptyString => (acc, s)
  | String c s' =>
      if is_digit c
      then read_digits (10 * acc + (Z.of_N (N_of_ascii c) - 48)) s'
      else (acc, s)
  end.

Definition read_number (s : string) : option (Z * string) :=
  match s with
  | String c _ => if is_digit c then Some (read_digits 0 s) else None
  | EmptyString => None
  end.

Fixpoint strip_prefix (p s : string) : option string :=
  match p, s with
  | EmptyString, _ => Some s
  | String a p', String b s' =>
      if Ascii.eqb a b then strip_prefix p' s' else None
  | _, EmptyString => None
  end.

(** ["400 – 599"] read as the pair [(400, 599)]. *)
Definition read_range (s : string) : option (Z * Z) :=
  '(lo, rest) ← read_number (strip_spaces s);
  rest' ← strip_prefix "–" rest;
  '(hi, rest'') ← read_number rest';
  if String.eqb rest'' "" then Some (lo, hi) else None.

(** ["15 000 FCFA"] read as [15000]. *)
Definition read_amount (s : string) : option Z :=
  '(n, rest) ← read_number (strip_spaces s);
  if String.eqb rest "FCFA" then Some n else None.

Record TierBand := {
  band_name : string;
  band_lo : Z;
  band_hi : Z;
  band_max : Z;
}.

Definition read_row (t : TierRow) : option TierBand :=
  '(lo, hi) ← read_range (range t);
  m ← read_amount (max t);
  Some {| band_name := name t; band_lo := lo; band_hi := hi; band_max := m |}.

(** The row of [TIERS] whose range holds a score. *)
Definition band_of (score : Z) : option TierBand :=
  bands ← mapM read_row TIERS;
  find (fun b => (band_lo b <=? score) && (score <=? band_hi b)) bands.

(** *** The order of an explanations list *)

(** Each impact is at least as large, in magnitude, as the next. *)
Fixpoint descending (l : list number) : bool :=
  match l with
  | a :: (b :: _) as rest => PrimFloat.leb (abs b) (abs a) && descending rest
  | _ => true
  end.

Definition sorted_by_impact (sc : Score) : bool :=
  descending (impact <$> explanations sc).

(** *** States used as examples *)

(** A score of the lowest tier, as the backend may return it. *)
Definition beginner_score : Score :=
  {| trust_score := 250; tier := "NONE"; tier_label := "Débutant";
     max_loan_fcfa := 0; explanations := [] |}.

Definition some_user : UserSession :=
  {| userId := Some "u1"; displayName := Some "Awa";
     referralCode := Some "SCORAW7" |}.

(** A backend that answers the score query and then stops answering. *)
Definition backend_lost : Env :=
  {| getScore := fun _ => Ok beginner_score;
     applyForLoan := fun _ => Throw NetworkError |}.

(** A backend that refuses every application over the ceiling. *)
Definition refusal : LoanResponse :=
  {| approved := false; loan_id := None; amount_fcfa := None;
     total_due := None; interest_fcfa := None;
     reason := Some "AmountExceedsLimit"; message := None |}.

Definition backend_up : Env :=
  {| getScore := fun _ => Ok beginner_score;
     applyForLoan := fun _ => Ok refusal |}.

(** The statement that an application over the ceiling ends refused. *)
Definition refused_over_limit (env : Env) (now : number) (s : UserSession)
    (p : Page) : Prop :=
  PrimFloat.ltb (max_loan_fcfa (score p)) (amount p) = true ->
  exists r, result (handleApply_settled env now s p) = Some r
            /\ approved r = false
            /\ reason r = Some "AmountExceedsLimit".

End Credit.

(** ** The engine behind the API, from the specification

    None of the engine's code is among the sources; the client only calls
    it.  The two parts below are written from the specification's data
    model (section 3) and component design (sections 4.1 and 4.6). *)

Module Engine.

Inductive Tier := Debutant | Confirme | Expert | Elite.

Definition label (t : Tier) : string :=
  match t with
  | Debutant => "Débutant"
  | Confirme => "Confirmé"
  | Expert => "Expert"
  | Elite => "Élite"
  end.

Definition between (lo hi x : Z) : bool := (lo <=? x) && (x <=? hi).

(** Modelled from the spec: the scoring engine's tier lookup, which is
    not among the sources.  "Tier: one of Débutant, Confirmé, Expert,
    Élite, a step function of score with fixed breakpoints (0–399,
    400–599, 600–799, 800–1000)"; the score is an integer from 0 to
    1000, and no tier is given outside that range. *)
Definition tier_of_score (score : Z) : option Tier :=
  if between 0 399 score then Some Debutant
  else if between 400 599 score then Some Confirme
  else if between 600 799 score then Some Expert
  else if between 800 1000 score then Some Elite
  else None.

(** Modelled from the spec: the "fixed max-loan ceiling per tier
    (0, 15 000, 75 000, 200 000 currency units)" of the same engine. *)
Definition max_loan (t : Tier) : Z :=
  match t with
  | Debutant => 0
  | Confirme => 15000
  | Expert => 75000
  | Elite => 200000
  end.

(** Modelled from the spec: the engine's data model (section 3), which no
    source file declares.  A savings trigger has a "lifecycle state ACTIVE,
    PAUSED or DELETED", a "qualifying event kind (WIN, GOAL, CLEAN_SHEET,
    DRAW)" and a "fixed amount per occurrence". *)
Inductive RuleState := ACTIVE | PAUSED | DELETED.
Inductive EventKind := WIN | GOAL | CLEAN_SHEET | DRAW.

Record Rule := {
  owner : string;
  target_team : string;
  kind : EventKind;
  amount : Z;
  state : RuleState;
  times_triggered : Z;
  total_saved : Z;
}.

(** Modelled from the spec: "Trigger Event: an immutable fact: (rule id,
    external sporting-event id, occurrence timestamp)". *)
Record TriggerEvent := {
  rule_id : string;
  external_event_id : string;
  occurred_at : Z;
}.

(** Modelled from the spec: "Ledger Entry: immutable, append-only; fields:
    user id, amount, kind, state, created-at, settlement-batch id
    (nullable)". *)
Inductive EntryKind := VIRTUAL_CREDIT | SETTLEMENT_DEBIT | REVERSAL.
Inductive EntryState := PENDING | CONFIRMED | FAILED.

Record LedgerEntry := {
  user_id : string;
  entry_amount : Z;
  entry_kind : EntryKind;
  entry_state : EntryState;
  created_at : Z;
  batch_id : option string;
}.

(** Modelled from the spec: the engine's persistent store, as far as
    ingestion uses it: the rules, the idempotency keys already fired (the
    uniqueness constraint of section 4.1) and the append-only ledger. *)
Record Store := {
  rules : gmap string Rule;
  fired : gset (string * string);
  ledger : list LedgerEntry;
}.

Inductive IngestResult :=
  | accepted
  | duplicate
  | rule_not_found
  | rule_not_active.

Definition key (e : TriggerEvent) : string * string :=
  (rule_id e, external_event_id e).

Definition credit_entry (now : Z) (r : Rule) : LedgerEntry :=
  {| user_id := owner r; entry_amount := amount r;
     entry_kind := VIRTUAL_CREDIT; entry_state := PENDING;
     created_at := now; batch_id := None |}.

Definition count_trigger (r : Rule) : Rule :=
  {| owner := owner r; target_team := target_team r; kind := kind r;
     amount := amount r; state := state r;
     times_triggered := times_triggered r + 1;
     total_saved := total_saved r + amount r |}.

Definition is_active (r : Rule) : bool :=
  match state r with ACTIVE => true | _ => false end.

(** Modelled from the spec: the Event Ingestor, which is not among the
    sources.  "ingest(event) -> accepted, duplicate, rule-not-found or
    rule-not-active ... idempotent on (rule id, external event id): a
    second delivery of the same sporting event is a no-op, detected via a
    uniqueness constraint ... On acceptance, synchronously creates one
    VIRTUAL_CREDIT ledger entry for the rule's fixed amount and
    increments the rule's trigger counters."  The event is validated
    against its rule first and deduplicated next. *)
Definition ingest (now : Z) (e : TriggerEvent) (s : Store)
  : IngestResult * Store :=
  match rules s !! rule_id e with
  | None => (rule_not_found, s)
  | Some r =>
      if negb (is_active r) then (rule_not_active, s)
      else if decide (key e ∈ fired s) then (duplicate, s)
      else
        (accepted,
         {| rules := <[rule_id e := count_trigger r]> (rules s);
            fired := {[ key e ]} ∪ fired s;
            ledger := ledger s ++ [credit_entry now r] |})
  end.

(** Deliveries made one after the other, each at its own time. *)
Definition ingest_all (es : list (Z * TriggerEvent)) (s : Store) : Store :=
  foldl (fun acc te => snd (ingest te.1 te.2 acc)) s es.

Definition amount_if (p : LedgerEntry -> bool) (x : LedgerEntry) : Z :=
  if p x then entry_amount x else 0.

Definition sum_where (p : LedgerEntry -> bool) (l : list LedgerEntry) : Z :=
  foldr (fun x acc => amount_if p x + acc) 0 l.

Definition is_credit_of (u : string) (x : LedgerEntry) : bool :=
  String.eqb (user_id x) u
  && match entry_kind x with VIRTUAL_CREDIT => true | _ => false end.

Definition is_confirmed_debit_of (u : string) (x : LedgerEntry) : bool :=
  String.eqb (user_id x) u
  && match entry_kind x, entry_state x with
     | SETTLEMENT_DEBIT, CONFIRMED => true
     | _, _ => false
     end.

(** Modelled from the spec: the ledger's balance projection.  "The
    virtual balance is the sum of all VIRTUAL_CREDIT entries minus
    confirmed settlement debits." *)
Definition virtual_balance (u : string) (l : list LedgerEntry) : Z :=
  sum_where (is_credit_of u) l - sum_where (is_confirmed_debit_of u) l.

(** *** A store used as an example *)

Definition goal_rule : Rule :=
  {| owner := "u1"; target_team := "Arsenal"; kind := GOAL; amount := 500;
     state := ACTIVE; times_triggered := 0; total_saved := 0 |}.

Definition one_rule : Store :=
  {| rules := {[ "r1" := goal_rule ]}; fired := ∅; ledger := [] |}.

Definition saka_goal : TriggerEvent :=
  {| rule_id := "r1"; external_event_id := "match-881-goal-2";
     occurred_at := 1700000000 |}.

End Engine.

(** ** The onboarding page's controls ([frontend/src/lib/api.ts], lines 215
    to 231 and 285 to 364) *)

Module Wizard.

Import Session Onboarding.

Record EventChoice := {
  type : string;
  label : string;
  icon : string;
}.

Definition EVENTS : list EventChoice :=
  [ {| type := "WIN"; label := "Victoire"; icon := "🏆" |};
    {| type := "GOAL"; label := "But marqué"; icon := "⚽" |};
    {| type := "CLEAN_SHEET"; label := "Clean Sheet"; icon := "🧤" |};
    {| type := "DRAW"; label := "Match nul"; icon := "🤝" |} ].

(** The values of the range input of step 3 ([min] 500, [max] 5000, [step]
    500). *)
Definition amounts : list number :=
  [500; 1000; 1500; 2000; 2500; 3000; 3500; 4000; 4500; 5000]%float.

Definition at_step (n : number) (p : Page) : bool := PrimFloat.eqb (step p) n.

Definition set_step (n : number) (p : Page) : Page :=
  {| step := n; user_name := user_name p; phone := phone p;
     selectedTeam := selectedTeam p; selectedEvent := selectedEvent p;
     amount := amount p; loading := loading p; error := error p |}.

Definition set_name (s : string) (p : Page) : Page :=
  {| step := step p; user_name := s; phone := phone p;
     selectedTeam := selectedTeam p; selectedEvent := selectedEvent p;
     amount := amount p; loading := loading p; error := error p |}.

Definition set_phone (s : string) (p : Page) : Page :=
  {| step := step p; user_name := user_name p; phone := s;
     selectedTeam := selectedTeam p; selectedEvent := selectedEvent p;
     amount := amount p; loading := loading p; error := error p |}.

Definition set_team (t : Team) (p : Page) : Page :=
  {| step := step p; user_name := user_name p; phone := phone p;
     selectedTeam := Some t; selectedEvent := selectedEvent p;
     amount := amount p; loading := loading p; error := error p |}.

Definition set_event (e : string) (p : Page) : Page :=
  {| step := step p; user_name := user_name p; phone := phone p;
     selectedTeam := selectedTeam p; selectedEvent := e;
     amount := amount p; loading := loading p; error := error p |}.

Definition set_amount (a : number) (p : Page) : Page :=
  {| step := step p; user_name := user_name p; phone := phone p;
     selectedTeam := selectedTeam p; selectedEvent := selectedEvent p;
     amount := a; loading := loading p; error := error p |}.

(** What the user can do on the page: type in the two inputs of step 1,
    press Continuer or Retour, pick the [i]-th team tile of step 2, pick the
    [i]-th event tile or move the slider to its [i]-th value at step 3. *)
Inductive Action :=
  | TypeName (s : string)
  | TypePhone (s : string)
  | Continuer
  | Retour
  | PickTeam (i : nat)
  | PickEvent (i : nat)
  | Slide (i : nat).

(** The handler each control runs.  A control acts only at the step that
    renders it, and a disabled button ([!name || !phone] at step 1,
    [!selectedTeam] at step 2) does nothing. *)
Definition act (a : Action) (p : Page) : Page :=
  match a with
  | TypeName s => if at_step 1 p then set_name s p else p
  | TypePhone s => if at_step 1 p then set_phone s p else p
  | Continuer =>
      if at_step 1 p then
        if truthy_string (user_name p) && truthy_string (phone p)
        then set_step 2 p else p
      else if at_step 2 p then
        match selectedTeam p with
        | Some _ => set_step 3 p
        | None => p
        end
      else p
  | Retour =>
      if at_step 2 p then set_step 1 p
      else if at_step 3 p then set_step 2 p
      else p
  | PickTeam i =>
      if at_step 2 p then
        match TEAMS !! i with Some t => set_team t p | None => p end
      else p
  | PickEvent i =>
      if at_step 3 p then
        match EVENTS !! i with Some e => set_event (type e) p | None => p end
      else p
  | Slide i =>
      if at_step 3 p then
        match amounts !! i with Some a => set_amount a p | None => p end
      else p
  end.

(** The pages the user can bring about from the one the page opens with. *)
Inductive Reachable : Page -> Prop :=
  | reach_initial : Reachable initial
  | reach_act a p : Reachable p -> Reachable (act a p).

(** What every such page satisfies. *)
Record Sound (p : Page) : Prop := {
  sound_step : step p = 1%float \/ step p = 2%float \/ step p = 3%float;
  sound_names :
    step p <> 1%float -> user_name p <> "" /\ phone p <> "";
  sound_team : step p = 3%float -> is_Some (selectedTeam p);
  sound_team_listed : forall t, selectedTeam p = Some t -> t ∈ TEAMS;
  sound_event : selectedEvent p ∈ (type <$> EVENTS);
  sound_amount : amount p ∈ amounts;
  sound_idle : loading p = false;
}.



End Wizard.

(** ** From the onboarding page to the dashboard *)

Module Journey.

Import Session.

(** A full page load: the provider mounts with its initial state, the
    browser keeps [localStorage]. *)
Definition reload (st : Store) : Store :=
  {| session := no_session; localStorage := localStorage st |}.

(** The dashboard once the window has been sent to it: its effect runs
    first with the provider's initial session, then again with the session
    the provider restored. *)
Definition dashboard_after (env : Dashboard.Env) (st : Store)
  : Dashboard.Page :=
  Dashboard.load env (session (restore (reload st)))
    (Dashboard.load env no_session Dashboard.initial).

(** A backend that knows nobody. *)
Definition unknown_user : Dashboard.Env :=
  {| Dashboard.getBalance := fun _ => Throw (Error (VString "Not Found"));
     Dashboard.getScore := fun _ => Throw (Error (VString "Not Found"));
     Dashboard.getMyTriggers := fun _ => Ok [];
     Dashboard.getHistory := fun _ => Ok [] |}.

(** A backend that answers the balance and the history, not the rest. *)
Definition paid_up : Dashboard.Wallet :=
  {| Dashboard.virtual_balance_fcfa := 3000;
     Dashboard.confirmed_balance_fcfa := 0;
     Dashboard.pending_settlement_fcfa := 3000;
     Dashboard.total_saved_fcfa := 3000;
     Dashboard.current_streak_days := 2 |}.

Definition partly_up : Dashboard.Env :=
  {| Dashboard.getBalance := fun _ => Ok paid_up;
     Dashboard.getScore := fun _ => Throw NetworkError;
     Dashboard.getMyTriggers := fun _ => Throw NetworkError;
     Dashboard.getHistory := fun _ => Ok [] |}.

End Journey.

(** ** The triggers page: loading and creating
    ([frontend/src/app/triggers/page.tsx], lines 6 to 101) *)

Module TriggersPage.

Import Session Triggers.

Record LocalTeam := {
  team_id : number;
  name : string;
  logo : string;
}.

Definition TEAMS_LOCAL : list LocalTeam :=
  [ {| team_id := 42; name := "Arsenal"; logo := "🔴" |};
    {| team_id := 50; name := "Man City"; logo := "🔵" |};
    {| team_id := 85; name := "PSG"; logo := "🔵🔴" |};
    {| team_id := 541; name := "Real Madrid"; logo := "⚪" |};
    {| team_id := 40; name := "Liverpool"; logo := "🔴" |};
    {| team_id := 838; name := "Coton Sport"; logo := "🟢" |} ].

(** The state of the creation form. *)
Record Form := {
  showCreate : bool;
  newTeam : option LocalTeam;
  newEvent : string;
  newAmount : number;
  saving : bool;
}.

Definition closed : Form :=
  {| showCreate := false; newTeam := None; newEvent := "WIN";
     newAmount := 1000; saving := false |}.

Record CreateData := {
  user_id : string;
  data_team_id : number;
  data_team_name : string;
  data_event_type : string;
  data_amount_fcfa : number;
}.

(** The clock and the backend's answers.  [createTrigger] resolves to an
    object, which the page reads as a [Record<string, string>]. *)
Record Env := {
  now : number;
  getMyTriggers : string -> result exn (list Trigger);
  createTrigger : CreateData -> result exn (gmap string string);
}.

(** The effect that loads the user's triggers: the backend's list replaces
    the one shown only when it is not empty. *)
Definition load (env : Env) (s : UserSession) (p : Page) : Page :=
  match logged_in s with
  | Some uid =>
      match getMyTriggers env uid with
      | Ok data =>
          if (0 <? length data)%nat
          then {| triggers := data; sent := sent p |}
          else p
      | Throw _ => p
      end
  | None => p
  end.

Definition local_trigger (env : Env) (f : Form) (team : LocalTeam)
  : Trigger :=
  {| id := "t_" +:+ integer_to_string (now env); team_name := name team;
     event_type := newEvent f; amount_fcfa := newAmount f;
     times_triggered := 0; total_saved_fcfa := 0; status := "ACTIVE" |}.

Definition with_id (tr : Trigger) (i : string) : Trigger :=
  {| id := i; team_name := team_name tr; event_type := event_type tr;
     amount_fcfa := amount_fcfa tr; times_triggered := times_triggered tr;
     total_saved_fcfa := total_saved_fcfa tr; status := status tr |}.

(** The trigger [addTrigger] ends up with: the local one, under the
    backend's id when the user is logged in and the backend answered with
    one. *)
Definition new_trigger (env : Env) (s : UserSession) (f : Form)
    (team : LocalTeam) : Trigger :=
  let local := local_trigger env f team in
  match logged_in s with
  | Some uid =>
      match createTrigger env
              {| user_id := uid; data_team_id := team_id team;
                 data_team_name := name team; data_event_type := newEvent f;
                 data_amount_fcfa := newAmount f |} with
      | Ok created =>
          match created !! "id" with
          | Some i => with_id local i
          | None => local
          end
      | Throw _ => local
      end
  | None => local
  end.

Definition addTrigger (env : Env) (s : UserSession) (pf : Page * Form)
  : Page * Form :=
  let '(p, f) := pf in
  match newTeam f with
  | None => pf
  | Some team =>
      ({| triggers := triggers p ++ [new_trigger env s f team];
          sent := sent p |},
       {| showCreate := false; newTeam := None; newEvent := newEvent f;
          newAmount := newAmount f; saving := false |})
  end.

(** What happens on the page, one after the other: the list is loaded, a
    trigger is created from a filled form, a trigger of the list is
    paused or resumed. *)
Inductive Event :=
  | Loaded (env : Env) (s : UserSession)
  | Added (env : Env) (s : UserSession) (f : Form)
  | Toggled (s : UserSession) (t : Trigger).

Definition on (e : Event) (p : Page) : Page :=
  match e with
  | Loaded env s => load env s p
  | Added env s f => fst (addTrigger env s (p, f))
  | Toggled s t => togglePause s t p
  end.

Definition run (es : list Event) (p : Page) : Page :=
  foldl (fun acc e => on e acc) p es.

(** Examples. *)
Definition psg_form : Form :=
  {| showCreate := true;
     newTeam := Some {| team_id := 85; name := "PSG"; logo := "🔵🔴" |};
     newEvent := "DRAW"; newAmount := 2000; saving := false |}.

Definition down : Env :=
  {| now := 1700000000000;
     getMyTriggers := fun _ => Throw NetworkError;
     createTrigger := fun _ => Throw NetworkError |}.

Definition empty_handed : Env :=
  {| now := 1700000000000;
     getMyTriggers := fun _ => Ok [];
     createTrigger := fun _ => Ok ∅ |}.

End TriggersPage.

(** ** The leaderboard page ([frontend/src/app/leaderboard/page.tsx],
    lines 1 to 125) *)

Module Leaderboard.

Import Session.

Record LeaderboardEntry := {
  rank : number;
  display_name : string;
  team : string;
  total_saved_fcfa : number;
  streak_days : number;
}.

Definition FALLBACK : list LeaderboardEntry :=
  [ {| rank := 1; display_name := "Patrice M."; team := "Arsenal";
       total_saved_fcfa := 285000; streak_days := 67 |};
    {| rank := 2; display_name := "Marie A."; team := "PSG";
       total_saved_fcfa := 231500; streak_days := 45 |};
    {| rank := 3; display_name := "Samuel E."; team := "Barcelona";
       total_saved_fcfa := 198000; streak_days := 52 |};
    {| rank := 4; display_name := "Cédric N."; team := "Real Madrid";
       total_saved_fcfa := 175000; streak_days := 38 |};
    {| rank := 5; display_name := "Jean-Pierre K."; team := "Arsenal";
       total_saved_fcfa := 127000; streak_days := 34 |} ].

Record Page := {
  entries : list LeaderboardEntry;
  loading : bool;
}.

Definition initial : Page := {| entries := FALLBACK; loading := true |}.

(** The effect that loads the board; it asks the backend whether or not a
    user is logged in. *)
Definition load (getLeaderboard : result exn (list LeaderboardEntry))
    (p : Page) : Page :=
  {| entries :=
       match getLeaderboard with
       | Ok data => if (0 <? length data)%nat then data else entries p
       | Throw _ => entries p
       end;
     loading := false |}.

(** [entries.slice(0, 3)] and [entries.slice(3)] *)
Definition top3 (p : Page) : list LeaderboardEntry := take 3 (entries p).
Definition rest (p : Page) : list LeaderboardEntry := drop 3 (entries p).

(** The entries on the podium, left to right, shown when [top3] holds
    three. *)
Definition podium (p : Page) : list LeaderboardEntry :=
  match top3 p with
  | [first; second; third] => [second; first; third]
  | _ => []
  end.

(** Every entry the loaded page shows: the podium, then the list. *)
Definition shown (p : Page) : list LeaderboardEntry := podium p ++ rest p.

Definition lower (c : ascii) : ascii :=
  let n := N_of_ascii c in
  if ((65 <=? n) && (n <=? 90))%N then ascii_of_N (n + 32) else c.

(** [s.toLowerCase()], on the ASCII letters. *)
Fixpoint toLowerCase (s : string) : string :=
  match s with
  | EmptyString => EmptyString
  | String c s' => String (lower c) (toLowerCase s')
  end.

(** [s.includes(sub)] *)
Fixpoint includes (s sub : string) : bool :=
  String.prefix sub s
  || match s with
     | EmptyString => false
     | String _ s' => includes s' sub
     end.

(** [session.displayName
      && name.toLowerCase().includes(
           session.displayName.toLowerCase().slice(0, 4))],
    for names written in ASCII; on other names [toLowerCase] and [slice]
    differ from JavaScript's. *)
Definition isSelf (s : UserSession) (name : string) : bool :=
  match displayName s with
  | Some d =>
      if truthy_string d
      then includes (toLowerCase name) (slice 0 4 (toLowerCase d))
      else false
  | None => false
  end.

End Leaderboard.

(** ** The credit page's controls ([frontend/src/app/leaderboard/page.tsx],
    lines 159 to 231 and 307 to 310) *)

Module CreditFlow.

Import Session Credit.

(** The credit page while it runs: its state, and the request of the
    [api.applyForLoan] call that [handleApply] is awaiting, if it is
    awaiting one. *)
Record Running := {
  page : Page;
  awaited : option LoanRequest;
}.


(** What happens on the page: the score is loaded, the button "Demander"
    is pressed, the awaited call settles, the scheduled callback runs, the
    button "Nouvelle simulation" of the result screen is pressed. *)
Inductive Event :=
  | Loaded (env : Env) (s : UserSession)
  | Pressed (s : UserSession)
  | Answered (answer : JS.result exn LoanResponse)
  | Fired (now : number)
  | Reset.

(** The form, with its button, is rendered only when there is no result
    and the page is not loading; the button is disabled while
    [applying]. *)
Definition can_press (p : Page) : bool :=
  negb (loading p) && negb (applying p)
  && match result p with None => true | Some _ => false end.

(** The demo approval is scheduled 1500 ms later. *)
Definition schedule_demo (p : Page) : Page :=
  set_result (result p) (applying p) (timers p ++ [1500%float]) p.

(** [handleApply] up to its [await]: [setApplying(true)], then the call
    is sent for a logged-in user, and the demo approval scheduled
    otherwise. *)
Definition begin_apply (s : UserSession) (r : Running) : Running :=
  let p := set_result (result (page r)) true (timers (page r)) (page r) in
  match logged_in s with
  | Some uid =>
      {| page := p;
         awaited := Some {| user_id := uid; requested_fcfa := amount p |} |}
  | None => {| page := schedule_demo p; awaited := awaited r |}
  end.

(** [handleApply] from its [await] on: the answer is stored and
    [applying] switched off, or, the call having thrown, the demo approval
    is scheduled. *)
Definition resume_apply (answer : JS.result exn LoanResponse) (r : Running)
  : Running :=
  match awaited r with
  | Some _ =>
      match answer with
      | Ok res =>
          {| page := set_result (Some res) false (timers (page r)) (page r);
             awaited := None |}
      | Throw _ => {| page := schedule_demo (page r); awaited := None |}
      end
  | None => r
  end.

Definition on_page (f : Page -> Page) (r : Running) : Running :=
  {| page := f (page r); awaited := awaited r |}.

Definition on (e : Event) (r : Running) : Running :=
  match e with
  | Loaded env s => on_page (load env s) r
  | Pressed s => if can_press (page r) then begin_apply s r else r
  | Answered answer => resume_apply answer r
  | Fired now => on_page (run_timer now) r
  | Reset =>
      match result (page r) with
      | Some _ =>
          on_page (fun p => set_result None (applying p) (timers p) p) r
      | None => r
      end
  end.

Definition run (es : list Event) (r : Running) : Running :=
  foldl (fun acc e => on e acc) r es.




End CreditFlow.

(** ** The virtual ledger and its settlement batches, from the
    specification

    Like the ingestor, the ledger, the batcher and the reconciliation step
    are not among the sources.  They are written here from sections 3 and
    4.2 to 4.4 of the specification, on the ledger entries of [Engine]. *)

Module Ledger.

(** Modelled from the spec: the Settlement Batch, which no source file
    declares.  "Groups ledger entries for one user; states OPEN, SUBMITTED,
    CONFIRMED, FAILED." *)
Inductive BatchState := OPEN | SUBMITTED | CONFIRMED | FAILED.

Record Batch := {
  batch_user : string;
  batch_state : BatchState;
}.

(** Modelled from the spec: the ledger store, which is not among the
    sources: the append-only entry log and the batches by id. *)
Record Book := {
  entries : list Engine.LedgerEntry;
  batches : gmap string Batch;
}.

Definition empty : Book := {| entries := []; batches := ∅ |}.

(** A credit in the ledger: a virtual credit, or the reversal that puts a
    failed batch's amount back. *)
Definition credit_like (x : Engine.LedgerEntry) : bool :=
  match Engine.entry_kind x with
  | Engine.VIRTUAL_CREDIT | Engine.REVERSAL => true
  | Engine.SETTLEMENT_DEBIT => false
  end.


Definition of_user (u : string) (x : Engine.LedgerEntry) : bool :=
  String.eqb (Engine.user_id x) u.

Definition in_batch (b : string) (x : Engine.LedgerEntry) : bool :=
  match Engine.batch_id x with
  | Some b' => String.eqb b' b
  | None => false
  end.

Definition untagged (x : Engine.LedgerEntry) : bool :=
  match Engine.batch_id x with
  | Some _ => false
  | None => true
  end.

(** The amount a batch groups: the sum of the credits tagged into it. *)
Definition batch_total (b : string) (l : list Engine.LedgerEntry) : Z :=
  Engine.sum_where (fun x => credit_like x && in_batch b x) l.

Definition with_batch (b : string) (x : Engine.LedgerEntry)
  : Engine.LedgerEntry :=
  {| Engine.user_id := Engine.user_id x;
     Engine.entry_amount := Engine.entry_amount x;
     Engine.entry_kind := Engine.entry_kind x;
     Engine.entry_state := Engine.entry_state x;
     Engine.created_at := Engine.created_at x;
     Engine.batch_id := Some b |}.

Definition with_state (st : Engine.EntryState) (x : Engine.LedgerEntry)
  : Engine.LedgerEntry :=
  {| Engine.user_id := Engine.user_id x;
     Engine.entry_amount := Engine.entry_amount x;
     Engine.entry_kind := Engine.entry_kind x;
     Engine.entry_state := st;
     Engine.created_at := Engine.created_at x;
     Engine.batch_id := Engine.batch_id x |}.

(** Every entry of batch [b] is given the state [st]. *)
Definition resolve_entry (b : string) (st : Engine.EntryState)
    (x : Engine.LedgerEntry) : Engine.LedgerEntry :=
  if in_batch b x then with_state st x else x.

Definition resolve (b : string) (st : Engine.EntryState)
    (l : list Engine.LedgerEntry) : list Engine.LedgerEntry :=
  resolve_entry b st <$> l.

Definition is_open (bt : Batch) : bool :=
  match batch_state bt with OPEN => true | _ => false end.

Definition is_submitted (bt : Batch) : bool :=
  match batch_state bt with SUBMITTED => true | _ => false end.

(** "At most one OPEN batch per user at any time." *)
Definition has_open (u : string) (bs : gmap string Batch) : bool :=
  bool_decide
    (map_Exists (fun _ bt => batch_user bt = u /\ is_open bt = true) bs).

(** What happens to the ledger. *)
Inductive Op :=
  | Credit (u : string) (a : Z) (now : Z)
  | OpenBatch (u : string) (b : string)
  | Tag (i : nat) (b : string)
  | Submit (b : string) (now : Z)
  | Outcome (b : string) (success : bool) (now : Z).

(** Modelled from the spec: the operations of the ledger (4.2), the
    batcher (4.3) and the reconciliation step (4.4), none of them among the
    sources.

    - [Credit]: "credit(user, amount) -> entry ... Rejects negative or zero
      amounts"; the entry is a PENDING VIRTUAL_CREDIT in no batch, as the
      ingestor's [Engine.credit_entry] is.
    - [OpenBatch]: "NO_OPEN_BATCH → OPEN", under a new id, for a user with
      no OPEN batch.
    - [Tag]: a credit of the batch's user that is in no batch is "tagged
      into the batch" while the batch is OPEN.
    - [Submit]: "OPEN → SUBMITTED ... the batcher issues exactly one debit
      request ... for the batch's total and marks the batch SUBMITTED";
      the debit is the SETTLEMENT_DEBIT entry of
      "debitForSettlement(user, amount) -> entry", which rejects an amount
      that is not positive.
    - [Outcome]: "On success: batch → CONFIRMED, all its ledger entries →
      CONFIRMED.  On failure: batch → FAILED, entries → FAILED, and a
      REVERSAL credit entry is appended restoring the amount to
      unbatched"; an outcome for a batch that is not SUBMITTED changes
      nothing ("reconciliation must be idempotent").

    When a batch is opened, which credits it takes and when it is
    submitted (threshold or cutoff) are the batcher's schedule; every
    schedule, the one of 4.3 included, is a sequence of these
    operations. *)
Definition step (op : Op) (s : Book) : Book :=
  match op with
  | Credit u a now =>
      if 0 <? a then
        {| entries :=
             entries s
             ++ [ {| Engine.user_id := u; Engine.entry_amount := a;
                     Engine.entry_kind := Engine.VIRTUAL_CREDIT;
                     Engine.entry_state := Engine.PENDING;
                     Engine.created_at := now; Engine.batch_id := None |} ];
           batches := batches s |}
      else s
  | OpenBatch u b =>
      if bool_decide (is_Some (batches s !! b)) || has_open u (batches s)
      then s
      else {| entries := entries s;
              batches :=
                <[b := {| batch_user := u; batch_state := OPEN |}]>
                  (batches s) |}
  | Tag i b =>
      match entries s !! i, batches s !! b with
      | Some x, Some bt =>
          if credit_like x && untagged x && of_user (batch_user bt) x
             && is_open bt
          then {| entries := <[i := with_batch b x]> (entries s);
                  batches := batches s |}
          else s
      | _, _ => s
      end
  | Submit b now =>
      match batches s !! b with
      | Some bt =>
          if is_open bt && (0 <? batch_total b (entries s)) then
            {| entries :=
                 entries s
                 ++ [ {| Engine.user_id := batch_user bt;
                         Engine.entry_amount := batch_total b (entries s);
                         Engine.entry_kind := Engine.SETTLEMENT_DEBIT;
                         Engine.entry_state := Engine.PENDING;
                         Engine.created_at := now;
                         Engine.batch_id := Some b |} ];
               batches :=
                 <[b := {| batch_user := batch_user bt;
                           batch_state := SUBMITTED |}]> (batches s) |}
          else s
      | None => s
      end
  | Outcome b success now =>
      match batches s !! b with
      | Some bt =>
          if is_submitted bt then
            if success then
              {| entries := resolve b Engine.CONFIRMED (entries s);
                 batches :=
                   <[b := {| batch_user := batch_user bt;
                             batch_state := CONFIRMED |}]> (batches s) |}
            else
              {| entries :=
                   resolve b Engine.FAILED (entries s)
                   ++ [ {| Engine.user_id := batch_user bt;
                           Engine.entry_amount := batch_total b (entries s);
                           Engine.entry_kind := Engine.REVERSAL;
                           Engine.entry_state := Engine.PENDING;
                           Engine.created_at := now;
                           Engine.batch_id := None |} ];
                 batches :=
                   <[b := {| batch_user := batch_user bt;
                             batch_state := FAILED |}]> (batches s) |}
          else s
      | None => s
      end
  end.

(** The ledger after a history of operations, the first one first. *)
Definition run (ops : list Op) (s : Book) : Book :=
  foldl (fun acc op => step op acc) s ops.

(** The batch an entry is tagged into, if it is in one. *)
Definition batch_of (bs : gmap string Batch) (x : Engine.LedgerEntry)
  : option Batch :=
  match Engine.batch_id x with
  | Some b => bs !! b
  | None => None
  end.

(** A credit of user [u] in a batch whose state satisfies [p]. *)
Definition credit_in (p : BatchState -> bool) (bs : gmap string Batch)
    (u : string) (x : Engine.LedgerEntry) : bool :=
  of_user u x && credit_like x
  && match batch_of bs x with
     | Some bt => p (batch_state bt)
     | None => false
     end.

(** A batch "not yet resolved": OPEN, or SUBMITTED and awaiting its
    outcome. *)
Definition not_yet_resolved (st : BatchState) : bool :=
  match st with
  | OPEN | SUBMITTED => true
  | CONFIRMED | FAILED => false
  end.



(** Modelled from the spec: the balances of a user, projections of the
    entry log (section 3), which no source file computes.

    - "The virtual balance is the sum of all VIRTUAL_CREDIT entries minus
      confirmed settlement debits."
    - "The confirmed balance is the sum of CONFIRMED SETTLEMENT_DEBIT
      entries that successfully reached the payment rail."
    - "The pending settlement is the sum of entries assigned to an open
      batch not yet resolved": the credits tagged into a batch that is
      OPEN or SUBMITTED.  The batch's own debit restates their amount and
      is not counted a second time.
    - The unbatched credits: the credits in no batch, a REVERSAL
      "restoring the amount to unbatched" among them. *)
Definition virtual_balance (u : string) (s : Book) : Z :=
  Engine.virtual_balance u (entries s).

Definition confirmed_balance (u : string) (s : Book) : Z :=
  Engine.sum_where (Engine.is_confirmed_debit_of u) (entries s).

Definition pending_settlement (u : string) (s : Book) : Z :=
  Engine.sum_where (credit_in not_yet_resolved (batches s) u) (entries s).

Definition unbatched_of (u : string) (x : Engine.LedgerEntry) : bool :=
  of_user u x && credit_like x && untagged x.

Definition unbatched_credits (u : string) (s : Book) : Z :=
  Engine.sum_where (unbatched_of u) (entries s).

(** The sum of all VIRTUAL_CREDIT entries of a user: the virtual balance
    before the confirmed settlement debits are taken off. *)
Definition credited (u : string) (s : Book) : Z :=
  Engine.sum_where (Engine.is_credit_of u) (entries s).


(** *** Histories used as examples *)



(** Credits of two users, a batch that fails, and its reversal batched
    again with a later credit. *)
Definition failed_then_retried : list Op :=
  [ Credit "u1" 1000 1; OpenBatch "u1" "b1"; Tag 0 "b1"; Credit "u1" 1000 2;
    Tag 1 "b1"; Credit "u2" 700 3; Submit "b1" 4; Credit "u1" 500 5;
    Outcome "b1" false 6; OpenBatch "u1" "b2"; Tag 4 "b2"; Tag 5 "b2";
    Submit "b2" 7 ].

(** A history behind the figures of the dashboard's fallback wallet:
    35000 settled and confirmed, 12500 in an open batch. *)
Definition fallback_history : list Op :=
  [ Credit "u1" 35000 1; OpenBatch "u1" "b1"; Tag 0 "b1"; Submit "b1" 2;
    Outcome "b1" true 3; Credit "u1" 12500 4; OpenBatch "u1" "b2";
    Tag 2 "b2" ].

(** *** What every ledger reached from the empty one satisfies *)




(** "At most one OPEN batch per user at any time." *)
Definition one_open (bs : gmap string Batch) : Prop :=
  forall b1 b2 bt1 bt2,
    bs !! b1 = Some bt1 -> bs !! b2 = Some bt2 ->
    is_open bt1 = true -> is_open bt2 = true ->
    batch_user bt1 = batch_user bt2 -> b1 = b2.

End Ledger.

(** * Properties *)

Section NumberExamples.

Example Math_round_examples :
  Math_round 2.5 = 3%float /\ Math_round (-2.5) = (-2)%float
  /\ Math_round 0.49999999999999994 = 0%float
  /\ Math_round (-0.2) = (-0)%float
  /\ Math_round 1500.4999 = 1500%float
  /\ Math_round 4503599627370497 = 4503599627370497%float.
Proof. repeat split. Qed.

Example Math_floor_examples :
  Math_floor 49.5 = 49%float /\ Math_floor (-0.5) = (-1)%float
  /\ Math_floor (0.999 * 99) = 98%float
  /\ integer_to_string 1700000000000 = "1700000000000".
Proof. repeat split. Qed.

End NumberExamples.

Section CreditFacts.

Import Session Credit.

Lemma slider_steps_checked :
  Forall
    (fun k =>
       interest (slider_amount k) = number_of_Z (100 * k)
       /\ total (slider_amount k) = number_of_Z (1100 * k))
    (seqZ 1 200).
Proof.
  let l := eval vm_compute in (seqZ 1 200) in change (seqZ 1 200) with l.
  repeat (constructor; [split; vm_compute; reflexivity|]).
  constructor.
Qed.

(** C4. In the loan simulator the interest is [Math.round(amount * 0.10)]
    and the total is [amount + interest]; for every amount the slider can
    take up to the highest ceiling (1000, 2000, ..., 200000) the interest is
    exactly a tenth of the principal and the total is the principal plus
    that interest, computed on JavaScript's binary64 numbers; the panel
    shows them as "Intérêts (10%)" and "Total à rembourser" for a term of
    "30 jours". *)
Theorem simulator_interest_ten_percent (k : Z) :
  1 <= k <= 200 ->
  let amount := slider_amount k in
  interest amount = Math_round (amount * 0.10)%float
  /\ total amount = (amount + interest amount)%float
  /\ interest amount = number_of_Z (100 * k)
  /\ total amount = number_of_Z (1100 * k)
  /\ simulator amount
     = [ ("Intérêts (10%)", Amount (number_of_Z (100 * k)));
         ("Durée", Text "30 jours");
         ("Total à rembourser", Amount (number_of_Z (1100 * k))) ].
Proof.
  intros Hk amount.
  assert (Hin : k ∈ seqZ 1 200) by (apply elem_of_seqZ; lia).
  pose proof (proj1 (Forall_forall _ _) slider_steps_checked k Hin) as [Hi Ht].
  fold amount in Hi, Ht.
  split; [reflexivity|]. split; [reflexivity|].
  split; [exact Hi|]. split; [exact Ht|].
  unfold simulator. rewrite Hi, Ht. reflexivity.
Qed.

Lemma simulator_interest_ten_percent_witness :
  1 <= 15 <= 200
  /\ interest 15000 = 1500%float /\ total 15000 = 16500%float.
Proof.
  split; [lia|].
  destruct (simulator_interest_ten_percent 15 ltac:(lia))
    as (_ & _ & Hi & Ht & _).
  split; [exact Hi | exact Ht].
Defined.

(** The default amount and the fallback score, as the page opens. *)
Example simulator_opens :
  interest (amount initial) = 1000%float
  /\ total (amount initial) = 11000%float
  /\ activeTier (score initial) = TIERS !! 1%nat
  /\ PrimFloat.leb (amount initial) (max_loan_fcfa (score initial)) = true.
Proof. repeat split. Qed.

(** What the credit page holds once [handleApply] and its timer have run. *)
Lemma handleApply_settled_result env now s p :
  timers p = [] ->
  result (handleApply_settled env now s p)
  = match logged_in s with
    | Some uid =>
        match applyForLoan env {| user_id := uid; requested_fcfa := amount p |} with
        | Ok res => Some res
        | Throw _ => Some (demo_result now)
        end
    | None => Some (demo_result now)
    end.
Proof.
  intros Ht. unfold handleApply_settled, handleApply.
  destruct (logged_in s) as [uid|]; [destruct (applyForLoan env _)|];
    unfold run_timer; cbn; rewrite Ht; reflexivity.
Qed.

(** C3, as stated, fails: a logged-in user of the lowest tier (ceiling 0)
    asks for the default 10000 while the backend does not answer, and the
    demo path stores an approval. *)
Lemma demo_approves_over_limit :
  ~ refused_over_limit backend_lost 1700000000000 some_user
      (load backend_lost some_user initial).
Proof.
  unfold refused_over_limit. intros H.
  destruct (H eq_refl) as (r & Hr & Happ & _).
  vm_compute in Hr. injection Hr as <-. discriminate Happ.
Qed.

(** C3, amended. With no pending timer, [handleApply] ends with the
    backend's own answer as its result whenever the user is logged in and
    the call returns, so an application over the ceiling is shown refused
    with AmountExceedsLimit exactly when the backend answers so; with no
    session, or when the call throws, it ends with the demo approval,
    whatever the amount.  The page itself never compares the amount with
    the ceiling. *)
Theorem handleApply_result env now s p :
  timers p = [] ->
  let p' := handleApply_settled env now s p in
  applying p' = false
  /\ match logged_in s with
     | Some uid =>
         match applyForLoan env {| user_id := uid; requested_fcfa := amount p |} with
         | Ok res => result p' = Some res
         | Throw _ => result p' = Some (demo_result now)
         end
     | None => result p' = Some (demo_result now)
     end
  /\ approved (demo_result now) = true.
Proof.
  intros Ht p'. subst p'. split; [|split; [|reflexivity]].
  - unfold handleApply_settled, handleApply, run_timer.
    destruct (logged_in s) as [uid|]; [destruct (applyForLoan env _)|];
      cbn; rewrite Ht; reflexivity.
  - rewrite handleApply_settled_result by assumption.
    destruct (logged_in s) as [uid|]; [destruct (applyForLoan env _)|];
      reflexivity.
Qed.

Lemma handleApply_result_witness :
  result (handleApply_settled backend_up 1700000000000 some_user
            (load backend_up some_user initial)) = Some refusal
  /\ result (handleApply_settled backend_lost 1700000000000 some_user
               (load backend_lost some_user initial))
     = Some (demo_result 1700000000000).
Proof.
  split.
  - exact (proj1 (proj2 (handleApply_result backend_up 1700000000000 some_user
                           (load backend_up some_user initial) eq_refl))).
  - exact (proj1 (proj2 (handleApply_result backend_lost 1700000000000 some_user
                           (load backend_lost some_user initial) eq_refl))).
Defined.

(** C7, as stated, fails: the fallback score lists the impacts 0.72, 0.55,
    0.61, 0.45, and 0.55 comes before 0.61. *)
Lemma fallback_explanations_not_sorted :
  sorted_by_impact FALLBACK_SCORE = false.
Proof. reflexivity. Qed.

(** C7, amended. The credit page shows an explanations list in the order
    it received it, one bar per entry, without sorting; the fallback score
    lists its four features in the order of [ICONS] (savings_discipline,
    momo_activity, telecom_stability, behavioral_score) with impacts 0.72,
    0.55, 0.61, 0.45, which is not descending: only exchanging the second
    and third entries would make it so. *)
Theorem explanations_shown_in_given_order :
  (forall sc i, bars sc !! i = bar <$> explanations sc !! i)
  /\ (forall sc, length (bars sc) = length (explanations sc))
  /\ feature <$> explanations FALLBACK_SCORE = fst <$> ICONS
  /\ impact <$> explanations FALLBACK_SCORE
     = [0.72; 0.55; 0.61; 0.45]%float
  /\ descending [0.72; 0.55; 0.61; 0.45]%float = false
  /\ descending [0.72; 0.61; 0.55; 0.45]%float = true.
Proof.
  repeat split; try reflexivity.
  - intros sc i. unfold bars. apply list_lookup_fmap.
  - intros sc. unfold bars. apply length_fmap.
Qed.

End CreditFacts.

Section ApiFacts.

Import Api.

Variable NEXT_PUBLIC_API_URL : option string.
Variable fetch : FetchCall -> result exn Response.

Lemma request_unfold path options :
  request NEXT_PUBLIC_API_URL fetch path options
  = fetch (fetch_call NEXT_PUBLIC_API_URL path options) ≫= handle_response.
Proof. reflexivity. Qed.

Lemma error_message_object props status :
  error_message (VObject props) status
  = Ok (let detail := default VUndefined (props !! "detail") in
        let message := default VUndefined (props !! "message") in
        if truthy detail then detail
        else if truthy message then message
        else VString ("Erreur " +:+ integer_to_string status)).
Proof.
  unfold error_message, get, mbind, result_bind; cbn.
  destruct (truthy (default VUndefined (props !! "detail"))); [reflexivity|].
  destruct (truthy (default VUndefined (props !! "message"))); reflexivity.
Qed.

(** What [request] returns or throws, case by case. *)
Lemma handle_response_cases res :
  handle_response res
  = if ok res then json res
    else match json res with
         | Ok VNull | Ok VUndefined => Throw TypeError
         | Ok err => Throw (Error (chosen_message err (status res)))
         | Throw _ => Throw (Error (VString "Erreur serveur"))
         end.
Proof.
  unfold handle_response. destruct (ok res); [reflexivity|]. cbn.
  destruct (json res) as [err|e]; cbn.
  - destruct err; try reflexivity;
      try (unfold chosen_message, error_message, field, get, mbind,
             result_bind; cbn; reflexivity).
    unfold mbind at 1, result_bind at 1. rewrite error_message_object.
    reflexivity.
  - reflexivity.
Qed.


(** Where the wording "if present" and the code's [||] agree: on a body
    whose [detail] and [message], when there, are truthy. *)
Lemma chosen_message_as_stated err status :
  (forall d, field err "detail" = Some d -> truthy d = true) ->
  (forall m, field err "message" = Some m -> truthy m = true) ->
  chosen_message err status = stated_error_message (Ok err) status.
Proof.
  intros Hd Hm. unfold chosen_message, stated_error_message.
  destruct (field err "detail") as [d|]; cbn.
  - rewrite (Hd d eq_refl). reflexivity.
  - destruct (field err "message") as [m|]; cbn; [|reflexivity].
    rewrite (Hm m eq_refl). reflexivity.
Qed.

(** C6, amended. The balance query the client sends is a GET (no method
    is named, no body is sent) to /wallet/balance/{userId} under the API
    base, and the object it is declared to resolve to has the fields
    user_id, virtual_balance_fcfa, confirmed_balance_fcfa,
    pending_settlement_fcfa, total_saved_fcfa, current_streak_days and
    longest_streak_days. *)
Theorem getBalance_call userId :
  getBalance NEXT_PUBLIC_API_URL fetch userId
  = fetch (fetch_call NEXT_PUBLIC_API_URL ("/wallet/balance/" +:+ userId) None)
      ≫= handle_response
  /\ http_method
       (fetch_call NEXT_PUBLIC_API_URL ("/wallet/balance/" +:+ userId) None)
     = "GET"
  /\ body
       (init (fetch_call NEXT_PUBLIC_API_URL ("/wallet/balance/" +:+ userId)
                None))
     = None
  /\ url (fetch_call NEXT_PUBLIC_API_URL ("/wallet/balance/" +:+ userId) None)
     = API_BASE NEXT_PUBLIC_API_URL +:+ "/wallet/balance/" +:+ userId
  /\ getBalance_fields
     = [ "user_id"; "virtual_balance_fcfa"; "confirmed_balance_fcfa";
         "pending_settlement_fcfa"; "total_saved_fcfa";
         "current_streak_days"; "longest_streak_days" ].
Proof. repeat split. Qed.

End ApiFacts.

Section ApiExamples.

Import Api.



(** C6, as stated, fails: asked for the balance of user "u1", the client
    sends a GET to .../wallet/balance/u1, not a POST to /wallet, and the
    declared fields are not those of the contract. *)
Lemma getBalance_not_post_wallet :
  (getBalance None echo "u1" ≫= fun v => get v "method")
  = Ok (VString "GET")
  /\ (getBalance None echo "u1" ≫= fun v => get v "url")
     = Ok (VString "http://localhost:8000/api/v1/wallet/balance/u1")
  /\ "GET" <> contract_method
  /\ "http://localhost:8000/api/v1/wallet/balance/u1"
     <> API_BASE None +:+ contract_path
  /\ getBalance_fields <> contract_fields.
Proof.
  repeat split; try (vm_compute; reflexivity); vm_compute; discriminate.
Qed.

End ApiExamples.

Section TriggersFacts.

Import Session Triggers.

Lemma toggled_id tr : id (toggled tr) = id tr.
Proof. reflexivity. Qed.

Lemma toggled_status tr :
  status (toggled tr) = "ACTIVE" \/ status (toggled tr) = "PAUSED".
Proof.
  unfold toggled, with_status; cbn.
  destruct (String.eqb (status tr) "ACTIVE"); auto.
Qed.

Lemma toggled_twice tr :
  status tr = "ACTIVE" \/ status tr = "PAUSED" -> toggled (toggled tr) = tr.
Proof.
  destruct tr as [i tn et a tt ts st]; cbn.
  intros [-> | ->]; reflexivity.
Qed.

Lemma toggle_list_twice l t :
  two_state l t -> toggle_list (toggle_list l t) t = l.
Proof.
  unfold two_state. induction l as [|tr l IH]; intros H; [reflexivity|].
  cbn. f_equal.
  - destruct (String.eqb (id tr) (id t)) eqn:E.
    + rewrite toggled_id, E. apply toggled_twice.
      apply H; [left|]. now apply String.eqb_eq.
    + rewrite E. reflexivity.
  - apply IH. intros tr' Hin. apply H. now right.
Qed.

Lemma toggle_list_two_state l t : two_state (toggle_list l t) t.
Proof.
  intros tr' Hin Hid. unfold toggle_list in Hin.
  apply list_elem_of_fmap in Hin as (tr & -> & Hin).
  destruct (String.eqb (id tr) (id t)) eqn:E.
  - apply toggled_status.
  - apply String.eqb_neq in E. contradiction.
Qed.

Lemma toggle_list_lookup l t i :
  toggle_list l t !! i
  = (fun tr => if String.eqb (id tr) (id t) then toggled tr else tr)
      <$> l !! i.
Proof. unfold toggle_list. apply list_lookup_fmap. Qed.

(** C8, as stated, fails: pausing twice a trigger whose status is neither
    ACTIVE nor PAUSED leaves it PAUSED. *)
Lemma togglePause_twice_deleted :
  triggers
    (togglePause no_session deleted_trigger
       (togglePause no_session deleted_trigger
          {| triggers := [deleted_trigger]; sent := [] |}))
  <> [deleted_trigger].
Proof. vm_compute. discriminate. Qed.

(** C8, amended. One [togglePause t] keeps the list's length and order and
    changes only the status of the triggers whose id is [t.id], ACTIVE to
    PAUSED and any other status to ACTIVE, every other trigger and every
    other field staying as it was.  Two applications restore the list
    when every trigger with that id is ACTIVE or PAUSED; in general a
    third application undoes the second. *)
Theorem togglePause_spec s t p :
  let once := togglePause s t p in
  let twice := togglePause s t once in
  length (triggers once) = length (triggers p)
  /\ (forall i tr, triggers p !! i = Some tr ->
       exists tr', triggers once !! i = Some tr'
         /\ id tr' = id tr /\ team_name tr' = team_name tr
         /\ event_type tr' = event_type tr /\ amount_fcfa tr' = amount_fcfa tr
         /\ times_triggered tr' = times_triggered tr
         /\ total_saved_fcfa tr' = total_saved_fcfa tr
         /\ status tr'
            = if String.eqb (id tr) (id t)
              then (if String.eqb (status tr) "ACTIVE" then "PAUSED"
                    else "ACTIVE")
              else status tr)
  /\ (two_state (triggers p) t -> triggers twice = triggers p)
  /\ triggers (togglePause s t twice) = triggers once.
Proof.
  cbn. repeat split.
  - unfold toggle_list. apply length_fmap.
  - intros i tr Hi. rewrite toggle_list_lookup, Hi. cbn.
    eexists; split; [reflexivity|].
    destruct (String.eqb (id tr) (id t)); repeat split; reflexivity.
  - apply toggle_list_twice.
  - apply toggle_list_twice, toggle_list_two_state.
Qed.

Lemma togglePause_spec_witness :
  two_state DEMO_TRIGGERS first_demo
  /\ triggers (togglePause no_session first_demo
                 (togglePause no_session first_demo
                    initial))
     = DEMO_TRIGGERS.
Proof.
  assert (H : two_state DEMO_TRIGGERS first_demo).
  { intros tr Hin _. unfold DEMO_TRIGGERS in Hin.
    apply elem_of_cons in Hin as [-> | Hin]; [left; reflexivity|].
    apply elem_of_cons in Hin as [-> | Hin]; [left; reflexivity|].
    inversion Hin. }
  split; [exact H|].
  exact (proj1 (proj2 (proj2
           (togglePause_spec no_session first_demo
              initial))) H).
Defined.

End TriggersFacts.

Section OnboardingFacts.

Import Session Onboarding.

Lemma try_block_locals env p team l :
  (try_block env p team l).1.1
  = match signup env (signup_data p team) with
    | Ok r => {| l_userId := user_id r; l_referralCode := referral_code r |}
    | Throw _ => l
    end.
Proof. unfold try_block. destruct (signup env _); reflexivity. Qed.


End OnboardingFacts.

Section OnboardingExamples.

Import Session Onboarding.

Example handleComplete_offline :
  session (store (handleComplete offline ready))
  = {| userId := Some "demo_1700000000000"; displayName := Some "jean";
       referralCode := Some "SCORJE49" |}
  /\ calls (handleComplete offline ready)
     = [CallSignup (signup_data (page ready) arsenal)].
Proof. split; vm_compute; reflexivity. Qed.

Example handleComplete_half_up :
  session (store (handleComplete half_up ready))
  = {| userId := Some "u-77"; displayName := Some "jean";
       referralCode := Some "SCORJE12" |}
  /\ location (handleComplete half_up ready) = "/dashboard"
  /\ length (calls (handleComplete half_up ready)) = 2%nat.
Proof. repeat split; vm_compute; reflexivity. Qed.

End OnboardingExamples.

Section EngineFacts.

Import Engine.

Lemma TIERS_read :
  mapM Credit.read_row Credit.TIERS
  = Some
      [ {| Credit.band_name := "Débutant"; Credit.band_lo := 0;
           Credit.band_hi := 399; Credit.band_max := 0 |};
        {| Credit.band_name := "Confirmé"; Credit.band_lo := 400;
           Credit.band_hi := 599; Credit.band_max := 15000 |};
        {| Credit.band_name := "Expert"; Credit.band_lo := 600;
           Credit.band_hi := 799; Credit.band_max := 75000 |};
        {| Credit.band_name := "Élite"; Credit.band_lo := 800;
           Credit.band_hi := 1000; Credit.band_max := 200000 |} ].
Proof. vm_compute. reflexivity. Qed.

Lemma tier_of_score_range score t :
  tier_of_score score = Some t
  <-> match t with
      | Debutant => 0 <= score <= 399
      | Confirme => 400 <= score <= 599
      | Expert => 600 <= score <= 799
      | Elite => 800 <= score <= 1000
      end.
Proof.
  unfold tier_of_score, between.
  destruct (Z.leb_spec 0 score), (Z.leb_spec score 399),
    (Z.leb_spec 400 score), (Z.leb_spec score 599),
    (Z.leb_spec 600 score), (Z.leb_spec score 799),
    (Z.leb_spec 800 score), (Z.leb_spec score 1000);
    cbn; destruct t; split; intros; try discriminate; try lia; try reflexivity.
Qed.

(** C2. The tier of a trust score is the step function with breakpoints
    0–399 (Débutant), 400–599 (Confirmé), 600–799 (Expert), 800–1000
    (Élite) and ceilings 0, 15000, 75000, 200000; 399 gives Débutant with
    ceiling 0 and 400 gives Confirmé with ceiling 15000; and the client's
    TIERS table, its range and amount strings read as numbers, lists
    exactly these four bands: for every score the row whose range holds it
    carries the tier's name and ceiling. *)
Theorem tier_step_function :
  (forall score t,
     tier_of_score score = Some t
     <-> match t with
         | Debutant => 0 <= score <= 399
         | Confirme => 400 <= score <= 599
         | Expert => 600 <= score <= 799
         | Elite => 800 <= score <= 1000
         end)
  /\ max_loan <$> [Debutant; Confirme; Expert; Elite]
     = [0; 15000; 75000; 200000]
  /\ (label <$> tier_of_score 399, max_loan <$> tier_of_score 399)
     = (Some "Débutant", Some 0)
  /\ (label <$> tier_of_score 400, max_loan <$> tier_of_score 400)
     = (Some "Confirmé", Some 15000)
  /\ (forall score,
        (fun t => (label t, max_loan t)) <$> tier_of_score score
        = (fun b => (Credit.band_name b, Credit.band_max b))
            <$> Credit.band_of score)
  /\ (fun r => (Credit.name r, Credit.read_range (Credit.range r),
                Credit.read_amount (Credit.max r))) <$> Credit.TIERS
     = [ ("Débutant", Some (0, 399), Some 0);
         ("Confirmé", Some (400, 599), Some 15000);
         ("Expert", Some (600, 799), Some 75000);
         ("Élite", Some (800, 1000), Some 200000) ].
Proof.
  split; [apply tier_of_score_range|].
  repeat split; try (vm_compute; reflexivity).
  intros score. unfold Credit.band_of. rewrite TIERS_read.
  unfold tier_of_score, between. cbn.
  destruct (0 <=? score), (score <=? 399), (400 <=? score), (score <=? 599),
    (600 <=? score), (score <=? 799), (800 <=? score), (score <=? 1000);
    reflexivity.
Qed.

Lemma sum_where_app p l1 l2 :
  sum_where p (l1 ++ l2) = sum_where p l1 + sum_where p l2.
Proof.
  unfold sum_where. induction l1 as [|x l1 IH]; cbn; [reflexivity|].
  rewrite IH. lia.
Qed.

Lemma virtual_balance_credit now r l :
  virtual_balance (owner r) (l ++ [credit_entry now r])
  = virtual_balance (owner r) l + amount r.
Proof.
  unfold virtual_balance. rewrite !sum_where_app.
  unfold sum_where, amount_if, is_credit_of, is_confirmed_debit_of; cbn.
  rewrite String.eqb_refl. cbn. lia.
Qed.

Lemma ingest_accepted now e s s1 :
  ingest now e s = (accepted, s1) ->
  exists r,
    rules s !! rule_id e = Some r /\ is_active r = true
    /\ (key e ∉ fired s)
    /\ s1 = {| rules := <[rule_id e := count_trigger r]> (rules s);
               fired := {[ key e ]} ∪ fired s;
               ledger := ledger s ++ [credit_entry now r] |}.
Proof.
  unfold ingest. destruct (rules s !! rule_id e) as [r|]; [|discriminate].
  destruct (is_active r) eqn:Ha; cbn; [|discriminate].
  destruct (decide (key e ∈ fired s)) as [Hin|Hnin]; [discriminate|].
  intros [= <-]. exists r. auto.
Qed.

(** The answer does not depend on the clock, and only an accepted event
    changes the store. *)
Lemma ingest_answer_clock now now' e s :
  fst (ingest now e s) = fst (ingest now' e s).
Proof.
  unfold ingest. destruct (rules s !! rule_id e) as [r|]; [|reflexivity].
  destruct (is_active r); cbn; [|reflexivity].
  destruct (decide (key e ∈ fired s)); reflexivity.
Qed.

Lemma ingest_unchanged now e s :
  fst (ingest now e s) <> accepted -> snd (ingest now e s) = s.
Proof.
  unfold ingest. destruct (rules s !! rule_id e) as [r|]; [|reflexivity].
  destruct (is_active r); cbn; [|reflexivity].
  destruct (decide (key e ∈ fired s)); cbn; [reflexivity|congruence].
Qed.

Lemma ingest_again now now' e s s1 :
  ingest now e s = (accepted, s1) -> ingest now' e s1 = (duplicate, s1).
Proof.
  intros H. apply ingest_accepted in H as (r & Hr & Ha & Hk & ->).
  unfold ingest; cbn. rewrite lookup_insert_eq.
  replace (is_active (count_trigger r)) with true by (symmetry; exact Ha).
  cbn. destruct (decide (key e ∈ {[key e]} ∪ fired s)) as [_|Hn];
    [reflexivity|]. exfalso. apply Hn. set_solver.
Qed.

(** Once its key has fired, an event changes nothing, whatever has been
    ingested in between. *)
Lemma ingest_fired_noop now e s :
  key e ∈ fired s ->
  snd (ingest now e s) = s /\ fst (ingest now e s) <> accepted.
Proof.
  intros Hin. unfold ingest.
  destruct (rules s !! rule_id e) as [r|]; [|split; [reflexivity|discriminate]].
  destruct (is_active r); cbn; [|split; [reflexivity|discriminate]].
  destruct (decide (key e ∈ fired s)); [|contradiction].
  split; [reflexivity|discriminate].
Qed.

Lemma ingest_keeps_fired now e s k :
  k ∈ fired s -> k ∈ fired (snd (ingest now e s)).
Proof.
  intros Hin. unfold ingest.
  destruct (rules s !! rule_id e) as [r|]; [|exact Hin].
  destruct (is_active r); cbn; [|exact Hin].
  destruct (decide (key e ∈ fired s)); cbn; [exact Hin|set_solver].
Qed.

Lemma ingest_all_keeps_fired es s k :
  k ∈ fired s -> k ∈ fired (ingest_all es s).
Proof.
  revert s. induction es as [|[t e] es IH]; intros s Hin; [exact Hin|].
  cbn. apply IH, ingest_keeps_fired, Hin.
Qed.

Lemma ingest_redelivered_later now now' e es s :
  fst (ingest now e s) = accepted ->
  snd (ingest now' e (ingest_all es (snd (ingest now e s))))
  = ingest_all es (snd (ingest now e s)).
Proof.
  intros Hacc. apply ingest_fired_noop, ingest_all_keeps_fired.
  destruct (ingest now e s) as [r1 s1] eqn:H1. cbn in Hacc; subst r1.
  apply ingest_accepted in H1 as (r & _ & _ & _ & ->). cbn. set_solver.
Qed.

(** C5. Ingestion is idempotent on (rule id, external event id): whatever
    the store and the event, delivering the event a second time is never
    accepted and leaves the store exactly as the first delivery left it.
    When the first delivery was accepted it appended one VIRTUAL_CREDIT
    entry of the rule's amount, raising the owner's virtual balance by
    that amount, and after the second delivery, answered [duplicate], the
    ledger still holds that one entry more and the balance that one delta
    more, and the same holds for any later redelivery, whatever was
    ingested in between; when the first was not accepted nothing changed
    at all. *)
Theorem ingest_idempotent now now' e s :
  let first := ingest now e s in
  let second := ingest now' e (snd first) in
  snd second = snd first
  /\ fst second <> accepted
  /\ match fst first with
     | accepted =>
         fst second = duplicate
         /\ (exists r,
              rules s !! rule_id e = Some r
              /\ ledger (snd second) = ledger s ++ [credit_entry now r]
              /\ length (ledger (snd second)) = S (length (ledger s))
              /\ virtual_balance (owner r) (ledger (snd second))
                 = virtual_balance (owner r) (ledger s) + amount r)
         /\ (forall later t,
              snd (ingest t e (ingest_all later (snd first)))
              = ingest_all later (snd first))
     | _ => snd first = s
     end.
Proof.
  cbn zeta.
  destruct (fst (ingest now e s)) eqn:Hans.
  - (* accepted: the second delivery meets the uniqueness constraint *)
    destruct (ingest now e s) as [r1 s1] eqn:H1. cbn in Hans. subst r1.
    cbn [fst snd]. rewrite (ingest_again now now' e s s1 H1); cbn [fst snd].
    split; [reflexivity|]. split; [discriminate|]. split; [reflexivity|].
    split.
    + apply ingest_accepted in H1 as (r & Hr & Ha & Hk & ->). cbn.
      exists r. repeat split; [exact Hr| |apply virtual_balance_credit].
      rewrite length_app. cbn. lia.
    + intros later t.
      pose proof (ingest_redelivered_later now t e later s) as Hl.
      rewrite H1 in Hl. apply Hl. reflexivity.
  - rewrite (ingest_unchanged now e s) by congruence.
    rewrite <- (ingest_answer_clock now now' e s), Hans.
    split; [|split; [discriminate|reflexivity]].
    apply ingest_unchanged.
    rewrite <- (ingest_answer_clock now now' e s), Hans. discriminate.
  - rewrite (ingest_unchanged now e s) by congruence.
    rewrite <- (ingest_answer_clock now now' e s), Hans.
    split; [|split; [discriminate|reflexivity]].
    apply ingest_unchanged.
    rewrite <- (ingest_answer_clock now now' e s), Hans. discriminate.
  - rewrite (ingest_unchanged now e s) by congruence.
    rewrite <- (ingest_answer_clock now now' e s), Hans.
    split; [|split; [discriminate|reflexivity]].
    apply ingest_unchanged.
    rewrite <- (ingest_answer_clock now now' e s), Hans. discriminate.
Qed.

Example ingest_twice :
  ingest 1700000100 saka_goal (snd (ingest 1700000050 saka_goal one_rule))
  = (duplicate, snd (ingest 1700000050 saka_goal one_rule))
  /\ fst (ingest 1700000050 saka_goal one_rule) = accepted
  /\ ledger (snd (ingest 1700000050 saka_goal one_rule))
     = [credit_entry 1700000050 goal_rule]
  /\ virtual_balance "u1" (ledger (snd (ingest 1700000050 saka_goal one_rule)))
     = 500.
Proof. repeat split; vm_compute; reflexivity. Qed.

(** The two fallback scores of the client sit in the tier they name. *)
Example fallback_scores_in_tier :
  (number_to_Z (Credit.trust_score Credit.FALLBACK_SCORE) ≫= tier_of_score)
  = Some Confirme
  /\ Credit.tier_label Credit.FALLBACK_SCORE = label Confirme
  /\ number_to_Z (Credit.max_loan_fcfa Credit.FALLBACK_SCORE)
     = Some (max_loan Confirme)
  /\ (number_to_Z (Dashboard.trust_score Dashboard.FALLBACK.score)
       ≫= tier_of_score) = Some Confirme
  /\ Dashboard.tier_label Dashboard.FALLBACK.score = label Confirme
  /\ number_to_Z (Dashboard.max_loan_fcfa Dashboard.FALLBACK.score)
     = Some (max_loan Confirme).
Proof. repeat split; vm_compute; reflexivity. Qed.

End EngineFacts.

Section LedgerFacts.

Import Ledger.

Import Engine (sum_where, amount_if).
















(** The ledger's [Credit] appends the entry the ingestor creates for an
    accepted event. *)
Lemma credit_appends_ingested now r s :
  0 < Engine.amount r ->
  entries (step (Credit (Engine.owner r) (Engine.amount r) now) s)
  = entries s ++ [Engine.credit_entry now r].
Proof.
  intros H. cbn [step]. rewrite (proj2 (Z.ltb_lt _ _) H). reflexivity.
Qed.






















Lemma outcome_twice b success now later s :
  step (Outcome b success later) (step (Outcome b success now) s)
  = step (Outcome b success now) s.
Proof.
  cbn [step]. destruct (batches s !! b) as [bt|] eqn:Hb.
  - destruct (is_submitted bt) eqn:Hsub.
    + destruct success; cbn [batches]; rewrite lookup_insert_eq; reflexivity.
    + rewrite Hb, Hsub. reflexivity.
  - rewrite Hb. reflexivity.
Qed.

Lemma one_open_close bs b v :
  one_open bs -> is_open v = false -> one_open (<[b := v]> bs).
Proof.
  intros H Hv b1 b2 bt1 bt2 E1 E2 O1 O2 Hu.
  destruct (decide (b = b1)) as [<-|N1].
  { rewrite lookup_insert_eq in E1. congruence. }
  destruct (decide (b = b2)) as [<-|N2].
  { rewrite lookup_insert_eq in E2. congruence. }
  rewrite lookup_insert_ne in E1, E2 by assumption. eauto.
Qed.

Lemma step_one_open op s :
  one_open (batches s) -> one_open (batches (step op s)).
Proof.
  intros H. destruct op as [u a now|u b|i b|b now|b success now]; cbn [step].
  - destruct (0 <? a); exact H.
  - destruct (bool_decide (is_Some (batches s !! b))); [exact H|].
    cbn [orb]. destruct (has_open u (batches s)) eqn:Hopen; [exact H|].
    apply bool_decide_eq_false in Hopen. cbn [batches].
    assert (Hnone : forall b' bt', batches s !! b' = Some bt' ->
                      is_open bt' = true -> batch_user bt' <> u).
    { intros b' bt' Hb' Ho Hu. apply Hopen. exists b', bt'. auto. }
    intros b1 b2 bt1 bt2 E1 E2 O1 O2 Hu.
    destruct (decide (b = b1)) as [<-|N1], (decide (b = b2)) as [<-|N2];
      [reflexivity| | |].
    + rewrite lookup_insert_eq in E1. injection E1 as <-.
      rewrite lookup_insert_ne in E2 by assumption.
      exfalso. apply (Hnone b2 bt2 E2 O2). cbn in Hu. congruence.
    + rewrite lookup_insert_eq in E2. injection E2 as <-.
      rewrite lookup_insert_ne in E1 by assumption.
      exfalso. apply (Hnone b1 bt1 E1 O1). cbn in Hu. congruence.
    + rewrite lookup_insert_ne in E1, E2 by assumption. eauto.
  - destruct (entries s !! i), (batches s !! b); try exact H.
    destruct (_ && _); exact H.
  - destruct (batches s !! b); [|exact H].
    destruct (_ && _); [|exact H].
    apply one_open_close; [exact H|reflexivity].
  - destruct (batches s !! b); [|exact H].
    destruct (is_submitted _); [|exact H].
    destruct success; apply one_open_close; auto.
Qed.

Lemma run_one_open ops s :
  one_open (batches s) -> one_open (batches (run ops s)).
Proof.
  unfold run. revert s. induction ops as [|op ops IH]; intros s Hs; cbn.
  - exact Hs.
  - apply IH, step_one_open, Hs.
Qed.

(** The batcher of the model keeps the specification's "at most one OPEN
    batch per user at any time". *)
Lemma at_most_one_open ops : one_open (batches (run ops empty)).
Proof.
  apply run_one_open. intros b1 b2 bt1 bt2 E1. cbn in E1.
  rewrite lookup_empty in E1. discriminate.
Qed.

(** A failed settlement puts the batch's amount back among the unbatched
    credits, a later batch takes it in again, and no balance of another
    user moves. *)
Lemma failed_then_retried_balances :
  credited "u1" (run failed_then_retried empty) = 2500
  /\ confirmed_balance "u1" (run failed_then_retried empty) = 0
  /\ pending_settlement "u1" (run failed_then_retried empty) = 2500
  /\ unbatched_credits "u1" (run failed_then_retried empty) = 0
  /\ credited "u2" (run failed_then_retried empty) = 700
  /\ unbatched_credits "u2" (run failed_then_retried empty) = 700.
Proof. vm_compute. repeat split. Qed.

(** The figures of the dashboard's fallback wallet are those of a ledger
    with 35000 settled and 12500 in an open batch, the 47500 being the sum
    of the virtual credits. *)
Lemma fallback_history_balances :
  credited "u1" (run fallback_history empty) = 47500
  /\ confirmed_balance "u1" (run fallback_history empty) = 35000
  /\ pending_settlement "u1" (run fallback_history empty) = 12500
  /\ unbatched_credits "u1" (run fallback_history empty) = 0
  /\ virtual_balance "u1" (run fallback_history empty) = 12500.
Proof. vm_compute. repeat split. Qed.



End LedgerFacts.

(** * Further properties of the client *)

Section RequestFacts.

Import Api.

Variable NEXT_PUBLIC_API_URL : option string.
Variable fetch : FetchCall -> result exn Response.



(** X1. [request] never returns a value for a response that is not ok:
    whatever the status and the body (JSON or not, object or not), it
    throws. *)
Theorem request_throws_when_not_ok path options res :
  fetch (fetch_call NEXT_PUBLIC_API_URL path options) = Ok res ->
  ok res = false ->
  exists e, request NEXT_PUBLIC_API_URL fetch path options = Throw e.
Proof.
  intros Hf Hok. rewrite request_unfold, Hf. cbn.
  rewrite handle_response_cases, Hok.
  destruct (json res) as [err|e]; [|eauto].
  destruct err; eauto.
Qed.


End RequestFacts.

Section RequestExamples.

Import Api.

Lemma request_throws_when_not_ok_witness :
  exists e, request None not_found "/score/u1" None = Throw e.
Proof.
  exact (request_throws_when_not_ok None not_found "/score/u1" None _
           eq_refl eq_refl).
Defined.


(** Without that condition the message can be empty: a body whose
    [detail] is an empty list is truthy, and [new Error] converts it to
    the empty string. *)
Lemma request_empty_list_detail :
  request None empty_list_detail "/score/u1" None
  = Throw (Error (VArray [])).
Proof. reflexivity. Qed.

End RequestExamples.

Section SessionFacts.

Import Session Journey.

(** X3. A session saved with [setSession] is the one the provider holds
    again after a full page load, whatever was stored before; after
    [clearSession] a page load finds none; and neither touches the other
    keys of localStorage. *)
Theorem session_survives_reload s st :
  session (restore (reload (setSession s st))) = s
  /\ session (restore (reload (clearSession (setSession s st)))) = no_session
  /\ restore (reload (clearSession st)) = reload (clearSession st)
  /\ (forall k, k <> SESSION_KEY ->
       localStorage (setSession s st) !! k = localStorage st !! k
       /\ localStorage (clearSession st) !! k = localStorage st !! k).
Proof.
  repeat split.
  - unfold restore, reload, setSession; cbn. rewrite lookup_insert_eq.
    reflexivity.
  - unfold restore, reload, clearSession, setSession; cbn.
    rewrite lookup_delete_eq. reflexivity.
  - unfold restore, reload, clearSession; cbn. rewrite lookup_delete_eq.
    reflexivity.
  - unfold setSession; cbn. apply lookup_insert_ne. congruence.
  - unfold clearSession; cbn. apply lookup_delete_ne. congruence.
Qed.

Lemma session_survives_reload_witness :
  localStorage (setSession Credit.some_user
                  {| session := no_session;
                     localStorage := {[ "theme" := no_session ]} |})
    !! "theme"
  = Some no_session.
Proof.
  exact (proj1 (proj2 (proj2 (proj2
           (session_survives_reload Credit.some_user
              {| session := no_session;
                 localStorage := {[ "theme" := no_session ]} |})))
           "theme" ltac:(discriminate))).
Defined.

End SessionFacts.

Section WizardFacts.

Import Session Onboarding Wizard.

Lemma step_not_1_2 : 2%float <> 1%float.
Proof.
  intros H. apply (f_equal (fun x => PrimFloat.eqb x 1)) in H.
  vm_compute in H. discriminate H.
Qed.

Lemma step_not_1_3 : 3%float <> 1%float.
Proof.
  intros H. apply (f_equal (fun x => PrimFloat.eqb x 1)) in H.
  vm_compute in H. discriminate H.
Qed.

Lemma step_not_2_3 : 2%float <> 3%float.
Proof.
  intros H. apply (f_equal (fun x => PrimFloat.eqb x 3)) in H.
  vm_compute in H. discriminate H.
Qed.

Lemma truthy_string_nonempty s : truthy_string s = true -> s <> "".
Proof. destruct s; [discriminate|]. intros _. discriminate. Qed.

Lemma initial_sound : Sound initial.
Proof.
  split; cbn.
  - auto.
  - intros H. contradiction.
  - intros H. symmetry in H. destruct (step_not_1_3 H).
  - intros t H. discriminate H.
  - set_solver.
  - unfold amounts. set_solver.
  - reflexivity.
Qed.

Lemma at_step_eq n p : step p = n -> forall m, at_step m p = PrimFloat.eqb n m.
Proof. intros <- m. reflexivity. Qed.

Ltac step_clash :=
  match goal with
  | H : 1%float = 3%float |- _ => symmetry in H; destruct (step_not_1_3 H)
  | H : 3%float = 1%float |- _ => destruct (step_not_1_3 H)
  | H : 2%float = 1%float |- _ => destruct (step_not_1_2 H)
  | H : 1%float = 2%float |- _ => symmetry in H; destruct (step_not_1_2 H)
  | H : 2%float = 3%float |- _ => destruct (step_not_2_3 H)
  | H : 3%float = 2%float |- _ => symmetry in H; destruct (step_not_2_3 H)
  | H : ?x <> ?x |- _ => destruct (H eq_refl)
  end.

Lemma act_sound a p : Sound p -> Sound (act a p).
Proof.
  intros HS. pose proof HS as [Hs Hn Ht Hl He Ha Hi].
  destruct Hs as [Hs | [Hs | Hs]]; destruct a; unfold act;
    rewrite !(at_step_eq _ _ Hs);
    change (PrimFloat.eqb 1 1) with true;
    change (PrimFloat.eqb 1 2) with false;
    change (PrimFloat.eqb 1 3) with false;
    change (PrimFloat.eqb 2 1) with false;
    change (PrimFloat.eqb 2 2) with true;
    change (PrimFloat.eqb 2 3) with false;
    change (PrimFloat.eqb 3 1) with false;
    change (PrimFloat.eqb 3 2) with false;
    change (PrimFloat.eqb 3 3) with true;
    cbv iota; try exact HS.
  all: try (destruct (truthy_string (user_name p) && truthy_string (phone p))
                eqn:Hfilled; [apply andb_prop in Hfilled as [Hname Hphone]
                             |exact HS]).
  all: try (destruct (selectedTeam p) as [t|] eqn:Hteam; [|exact HS]).
  all: try (destruct (TEAMS !! i) as [t|] eqn:Hi'; [|exact HS]).
  all: try (destruct (EVENTS !! i) as [e|] eqn:Hi'; [|exact HS]).
  all: try (destruct (amounts !! i) as [v|] eqn:Hi'; [|exact HS]).
  all: split; cbn; rewrite ?Hs, ?Hteam; auto using truthy_string_nonempty.
  all: intros; try step_clash.
  all: try (apply Hn; rewrite Hs;
            first [exact step_not_1_2 | exact step_not_1_3]).
  - (* the team picked is one of the tiles *)
    simplify_eq. eapply list_elem_of_lookup_2, Hi'.
  - (* so is the event *)
    change (type e ∈ type <$> EVENTS).
    apply list_elem_of_fmap_2. eapply list_elem_of_lookup_2, Hi'.
  - (* and the amount *)
    eapply list_elem_of_lookup_2, Hi'.
Qed.

(** X4. Whatever the user does with the controls of the onboarding page,
    the page stays well formed: the step is 1, 2 or 3; past step 1 the name
    and the phone number are not empty; at step 3 a team is selected; a
    selected team is one of [TEAMS], the event one of [EVENTS], the amount
    one of the slider's values; and the page is not loading. *)
Theorem wizard_sound p : Reachable p -> Sound p.
Proof.
  induction 1 as [|a p _ IH]; [exact initial_sound | exact (act_sound a p IH)].
Qed.

Lemma wizard_sound_witness :
  Sound (act Continuer (act (PickTeam 2) (act Continuer
           (act (TypePhone "699112233") (act (TypeName "Awa") initial))))).
Proof.
  apply wizard_sound. repeat apply reach_act. apply reach_initial.
Defined.



End WizardFacts.

Section DashboardLoadFacts.

Import Session Dashboard.

Lemma fetch_all_cases env uid :
  fetch_all env uid
  = match getBalance env uid with
    | Throw e => Throw e
    | Ok w =>
        Ok (w,
            match getScore env uid with
            | Ok x => x | Throw _ => FALLBACK.score end,
            match getMyTriggers env uid with
            | Ok x => x | Throw _ => FALLBACK.triggers end,
            match getHistory env uid with
            | Ok x => x | Throw _ => FALLBACK.history end)
    end.
Proof.
  unfold fetch_all, mbind, mret, result_bind, result_ret, catch.
  destruct (getBalance env uid); [|reflexivity].
  destruct (getScore env uid), (getMyTriggers env uid), (getHistory env uid);
    reflexivity.
Qed.

Lemma load_wallet env s p :
  wallet (load env s p)
  = match logged_in s with
    | Some uid =>
        match getBalance env uid with Ok w => w | Throw _ => wallet p end
    | None => wallet p
    end.
Proof.
  unfold load. destruct (logged_in s) as [uid|]; [|reflexivity].
  rewrite fetch_all_cases. destruct (getBalance env uid); reflexivity.
Qed.

Lemma load_displayName env s p uid :
  logged_in s = Some uid ->
  displayName (load env s p)
  = or_string (default "" (Session.displayName s)) "Utilisateur".
Proof.
  intros H. unfold load. rewrite H.
  destruct (fetch_all env uid) as [[[[w sc] t] h]|e]; reflexivity.
Qed.

Lemma load_displayName_none env s p :
  logged_in s = None -> displayName (load env s p) = displayName p.
Proof. intros H. unfold load. rewrite H. reflexivity. Qed.

(** X6. How the dashboard's four queries combine.  With nobody logged in
    nothing is asked and everything shown stays.  If the balance query
    fails, the wallet, score, triggers and history shown all stay as they
    were, even when the other three queries answered.  If it succeeds, the
    wallet is the backend's, and each of score, triggers and history is the
    backend's answer or, on its own failure, its fallback constant. *)
Theorem dashboard_load_cases env s p :
  loading (load env s p) = false
  /\ match logged_in s with
     | None =>
         wallet (load env s p) = wallet p /\ score (load env s p) = score p
         /\ triggers (load env s p) = triggers p
         /\ history (load env s p) = history p
         /\ displayName (load env s p) = displayName p
         /\ referralCode (load env s p) = referralCode p
     | Some uid =>
         match getBalance env uid with
         | Throw _ =>
             wallet (load env s p) = wallet p
             /\ score (load env s p) = score p
             /\ triggers (load env s p) = triggers p
             /\ history (load env s p) = history p
         | Ok w =>
             wallet (load env s p) = w
             /\ score (load env s p)
                = match getScore env uid with
                  | Ok x => x | Throw _ => FALLBACK.score end
             /\ triggers (load env s p)
                = match getMyTriggers env uid with
                  | Ok x => x | Throw _ => FALLBACK.triggers end
             /\ history (load env s p)
                = match getHistory env uid with
                  | Ok x => x | Throw _ => FALLBACK.history end
         end
     end.
Proof.
  unfold load. destruct (logged_in s) as [uid|]; [|repeat split].
  rewrite fetch_all_cases.
  destruct (getBalance env uid); repeat split.
Qed.

End DashboardLoadFacts.

Section JourneyFacts.

Import Session Onboarding Journey.

Lemma saved_session env w team :
  selectedTeam (page w) = Some team ->
  session (restore (reload (store (handleComplete env w))))
  = {| userId :=
         Some match signup env (signup_data (page w) team) with
              | Ok r => user_id r
              | Throw _ => "demo_" +:+ integer_to_string (now env)
              end;
       displayName := Some (user_name (page w));
       referralCode :=
         Some match signup env (signup_data (page w) team) with
              | Ok r => referral_code r
              | Throw _ => l_referralCode (demo_locals env (page w))
              end |}.
Proof.
  intros Hteam. unfold handleComplete. rewrite Hteam.
  set (p := set_error "" (set_loading true (page w))).
  pose proof (try_block_locals env p team (demo_locals env p)) as Hl.
  change (signup_data p team) with (signup_data (page w) team) in Hl.
  destruct (try_block env p team (demo_locals env p)) as [[l sent] r0].
  cbn in Hl. cbn [store]. unfold restore, reload, setSession. cbn.
  rewrite lookup_insert_eq. subst l.
  destruct (signup env (signup_data (page w) team)); reflexivity.
Qed.

(** X7. After [handleComplete] has sent the window to the dashboard, the
    dashboard finds the saved session again.  When signup failed the user
    counts as logged in under the demo id: the dashboard greets them by the
    name typed ("Utilisateur" if none), asks the backend for the balance of
    the demo id, and shows the fallback wallet if that fails.  When signup
    succeeded the same holds under the backend's id, unless that id is the
    empty string, in which case the dashboard behaves as if nobody were
    logged in. *)
Theorem dashboard_after_onboarding env denv w team :
  selectedTeam (page w) = Some team ->
  let d := dashboard_after denv (store (handleComplete env w)) in
  let greeting := or_string (user_name (page w)) "Utilisateur" in
  let wallet_of uid :=
    match Dashboard.getBalance denv uid with
    | Ok b => b
    | Throw _ => Dashboard.FALLBACK.wallet
    end in
  match signup env (signup_data (page w) team) with
  | Throw _ =>
      Dashboard.displayName d = greeting
      /\ Dashboard.wallet d
         = wallet_of ("demo_" +:+ integer_to_string (now env))
  | Ok r =>
      if truthy_string (user_id r)
      then Dashboard.displayName d = greeting
           /\ Dashboard.wallet d = wallet_of (user_id r)
      else Dashboard.displayName d = "Utilisateur"
           /\ Dashboard.wallet d = Dashboard.FALLBACK.wallet
  end.
Proof.
  intros Hteam. cbn zeta. unfold dashboard_after.
  rewrite (saved_session env w team Hteam).
  destruct (signup env (signup_data (page w) team)) as [r|e].
  - destruct (truthy_string (user_id r)) eqn:Hid.
    + rewrite (load_displayName _ _ _ (user_id r)),
        load_wallet;
        unfold logged_in; cbn; rewrite Hid; [|reflexivity].
      split; reflexivity.
    + rewrite load_displayName_none, load_wallet;
        unfold logged_in; cbn; rewrite Hid; [|reflexivity].
      split; reflexivity.
  - rewrite
      (load_displayName _ _ _
         ("demo_" +:+ integer_to_string (now env))),
      load_wallet; unfold logged_in; cbn; [|reflexivity].
    split; reflexivity.
Qed.

Lemma dashboard_after_onboarding_witness :
  Dashboard.displayName
    (dashboard_after partly_up (store (handleComplete offline ready)))
  = "jean"
  /\ Dashboard.wallet
       (dashboard_after partly_up (store (handleComplete offline ready)))
     = paid_up.
Proof.
  exact (dashboard_after_onboarding offline partly_up ready arsenal eq_refl).
Defined.

End JourneyFacts.

Section TriggersPageFacts.

Import Session Triggers TriggersPage.

Lemma load_cases env s p :
  triggers (load env s p) = triggers p
  \/ exists uid data,
       logged_in s = Some uid /\ getMyTriggers env uid = Ok data
       /\ data <> [] /\ triggers (load env s p) = data.
Proof.
  unfold load. destruct (logged_in s) as [uid|]; [|left; reflexivity].
  destruct (getMyTriggers env uid) as [data|e] eqn:Hg; [|left; reflexivity].
  destruct data as [|tr data]; [left; reflexivity|].
  right. exists uid, (tr :: data). repeat split; [exact Hg|discriminate].
Qed.

Lemma on_keeps_some e p : triggers p <> [] -> triggers (on e p) <> [].
Proof.
  intros Hp. destruct e as [env s|env s f|s t]; cbn.
  - destruct (load_cases env s p) as [-> | (uid & data & _ & _ & Hd & ->)];
      assumption.
  - destruct (newTeam f); cbn; [|exact Hp].
    destruct (triggers p); [contradiction|discriminate].
  - unfold toggle_list. destruct (triggers p); [contradiction|discriminate].
Qed.

(** X8. The triggers page never shows an empty list.  It opens with the
    demo triggers; loading replaces the list only by a backend answer that
    is not empty (an empty answer, a failure or no session leave it as it
    is), creating appends, pausing and resuming keep every trigger: so
    after any sequence of these the list still holds a trigger. *)
Theorem triggers_never_empty es p :
  triggers p <> [] -> triggers (run es p) <> [].
Proof.
  revert p. induction es as [|e es IH]; intros p Hp; [exact Hp|].
  cbn. apply IH, on_keeps_some, Hp.
Qed.

Lemma triggers_never_empty_witness :
  triggers
    (run [ Loaded empty_handed Credit.some_user;
           Added down Credit.some_user psg_form;
           Toggled Credit.some_user first_demo;
           Loaded down no_session ] initial) <> [].
Proof.
  apply triggers_never_empty. discriminate.
Defined.

(** X9. [addTrigger] always adds locally.  With a team chosen it appends
    exactly one trigger to the end of the list, leaving the others as they
    were: ACTIVE, never triggered, nothing saved, with the form's team,
    event and amount; its id is the backend's when the user is logged in
    and the backend answered with one, and "t_" followed by the clock
    otherwise (not logged in, call failed, or answer without id); the form
    is closed and reset.  With no team chosen nothing changes. *)
Theorem addTrigger_adds_locally env s p f :
  match newTeam f with
  | None => addTrigger env s (p, f) = (p, f)
  | Some team =>
      exists tr,
        triggers (fst (addTrigger env s (p, f))) = triggers p ++ [tr]
        /\ sent (fst (addTrigger env s (p, f))) = sent p
        /\ status tr = "ACTIVE"
        /\ times_triggered tr = 0%float /\ total_saved_fcfa tr = 0%float
        /\ team_name tr = name team /\ event_type tr = newEvent f
        /\ amount_fcfa tr = newAmount f
        /\ id tr
           = match logged_in s with
             | Some uid =>
                 match createTrigger env
                         {| user_id := uid; data_team_id := team_id team;
                            data_team_name := name team;
                            data_event_type := newEvent f;
                            data_amount_fcfa := newAmount f |} with
                 | Ok created =>
                     default ("t_" +:+ integer_to_string (now env))
                       (created !! "id")
                 | Throw _ => "t_" +:+ integer_to_string (now env)
                 end
             | None => "t_" +:+ integer_to_string (now env)
             end
        /\ showCreate (snd (addTrigger env s (p, f))) = false
        /\ newTeam (snd (addTrigger env s (p, f))) = None
        /\ saving (snd (addTrigger env s (p, f))) = false
  end.
Proof.
  unfold addTrigger. destruct (newTeam f) as [team|]; [|reflexivity].
  exists (new_trigger env s f team). cbn.
  unfold new_trigger.
  destruct (logged_in s) as [uid|]; [|repeat split].
  destruct (createTrigger env _) as [created|e]; [|repeat split].
  destruct (created !! "id"); repeat split.
Qed.

Lemma activeCount_cons tr l :
  activeCount (tr :: l)
  = ((if String.eqb (status tr) "ACTIVE" then 1 else 0) + activeCount l)%nat.
Proof.
  unfold activeCount. rewrite filter_cons.
  destruct (String.eqb_spec (status tr) "ACTIVE") as [He|Hne].
  - rewrite decide_True by exact He. reflexivity.
  - rewrite decide_False by exact Hne. reflexivity.
Qed.

Lemma toggle_list_absent l t :
  id t ∉ (id <$> l) -> toggle_list l t = l.
Proof.
  induction l as [|tr l IH]; intros Hnot; [reflexivity|].
  cbn in *. apply not_elem_of_cons in Hnot as [Hne Hnot].
  destruct (String.eqb_spec (id tr) (id t)) as [He|_]; [congruence|].
  f_equal. apply IH, Hnot.
Qed.

Lemma toggled_active tr :
  String.eqb (status (toggled tr)) "ACTIVE"
  = negb (String.eqb (status tr) "ACTIVE").
Proof. cbn. destruct (String.eqb (status tr) "ACTIVE"); reflexivity. Qed.

(** X10. With ids that are all different, pausing or resuming a trigger of
    the list moves the count of active triggers by exactly one: one fewer
    when the trigger was ACTIVE, one more otherwise. *)
Theorem toggle_moves_activeCount l t :
  NoDup (id <$> l) -> t ∈ l ->
  (activeCount (toggle_list l t)
   + (if String.eqb (status t) "ACTIVE" then 1 else 0)
   = activeCount l + (if String.eqb (status t) "ACTIVE" then 0 else 1))%nat.
Proof.
  induction l as [|tr l IH]; intros Hnd Hin; [inversion Hin|].
  cbn in Hnd. apply NoDup_cons in Hnd as [Hfresh Hnd].
  change (toggle_list (tr :: l) t)
    with ((if String.eqb (id tr) (id t) then toggled tr else tr)
            :: toggle_list l t).
  apply elem_of_cons in Hin as [-> | Hin].
  - rewrite String.eqb_refl, (toggle_list_absent l tr Hfresh),
      !activeCount_cons, toggled_active.
    destruct (String.eqb (status tr) "ACTIVE"); cbn; lia.
  - destruct (String.eqb_spec (id tr) (id t)) as [He|Hne].
    + exfalso. apply Hfresh. rewrite He. apply list_elem_of_fmap_2, Hin.
    + rewrite !activeCount_cons. specialize (IH Hnd Hin). lia.
Qed.

Lemma toggle_moves_activeCount_witness :
  (activeCount (toggle_list DEMO_TRIGGERS first_demo) + 1
   = activeCount DEMO_TRIGGERS + 0)%nat.
Proof.
  apply (toggle_moves_activeCount DEMO_TRIGGERS first_demo).
  - cbn. apply NoDup_cons_2; [|apply NoDup_singleton].
    intros H. apply list_elem_of_singleton in H. discriminate H.
  - left.
Defined.

(** X11. Pausing or resuming commutes: toggling by [t1] then by [t2] gives
    the same list as toggling by [t2] then by [t1], whatever the list and
    the two triggers (same id or not, in the list or not). *)
Theorem toggles_commute l t1 t2 :
  toggle_list (toggle_list l t1) t2 = toggle_list (toggle_list l t2) t1.
Proof.
  unfold toggle_list. rewrite <- !list_fmap_compose.
  apply list_fmap_ext. intros _ tr _. cbn.
  destruct (String.eqb (id tr) (id t1)) eqn:E1,
    (String.eqb (id tr) (id t2)) eqn:E2;
    rewrite ?toggled_id, ?E1, ?E2; reflexivity.
Qed.

(** X12. A trigger just created under an id no other trigger of the list
    has can be paused on its own: the list becomes the old triggers,
    untouched, followed by the new one with status PAUSED. *)
Theorem pause_after_add env s p f team :
  newTeam f = Some team ->
  id (new_trigger env s f team) ∉ (id <$> triggers p) ->
  toggle_list (triggers (fst (addTrigger env s (p, f))))
    (new_trigger env s f team)
  = triggers p ++ [with_status (new_trigger env s f team) "PAUSED"].
Proof.
  intros Hteam Hfresh. unfold addTrigger. rewrite Hteam. cbn.
  unfold toggle_list. rewrite fmap_app.
  fold (toggle_list (triggers p) (new_trigger env s f team)).
  rewrite (toggle_list_absent _ _ Hfresh). cbn.
  rewrite String.eqb_refl. f_equal. f_equal.
  unfold toggled. replace (status (new_trigger env s f team)) with "ACTIVE";
    [reflexivity|].
  unfold new_trigger. destruct (logged_in s) as [uid|]; [|reflexivity].
  destruct (createTrigger env _) as [created|e]; [|reflexivity].
  destruct (created !! "id"); reflexivity.
Qed.

Lemma pause_after_add_witness :
  toggle_list (triggers (fst (addTrigger down no_session (initial, psg_form))))
    (new_trigger down no_session psg_form
       {| team_id := 85; name := "PSG"; logo := "🔵🔴" |})
  = DEMO_TRIGGERS
    ++ [ {| id := "t_1700000000000"; team_name := "PSG";
            event_type := "DRAW"; amount_fcfa := 2000; times_triggered := 0;
            total_saved_fcfa := 0; status := "PAUSED" |} ].
Proof.
  apply (pause_after_add down no_session initial psg_form
           {| team_id := 85; name := "PSG"; logo := "🔵🔴" |} eq_refl).
  vm_compute. intros H.
  apply elem_of_cons in H as [H|H]; [discriminate H|].
  apply elem_of_cons in H as [H|H]; [discriminate H|].
  inversion H.
Defined.

End TriggersPageFacts.

Section ActiveTierFacts.

Import Credit.

(** X13. The tier the credit page highlights is always a row of [TIERS],
    chosen by the score's tier label alone: the row of that name when the
    label is one of the four names, and the Confirmé row for any other
    label. *)
Theorem activeTier_total sc :
  exists row,
    activeTier sc = Some row /\ row ∈ TIERS
    /\ (name row = tier_label sc
        \/ ((forall r, r ∈ TIERS -> name r <> tier_label sc)
            /\ name row = "Confirmé")).
Proof.
  unfold activeTier, TIERS. cbn -[String.eqb].
  destruct (String.eqb_spec "Débutant" (tier_label sc)) as [H1|H1];
    [eexists; split; [reflexivity|]; split; [set_solver|left; exact H1]|].
  destruct (String.eqb_spec "Confirmé" (tier_label sc)) as [H2|H2];
    [eexists; split; [reflexivity|]; split; [set_solver|left; exact H2]|].
  destruct (String.eqb_spec "Expert" (tier_label sc)) as [H3|H3];
    [eexists; split; [reflexivity|]; split; [set_solver|left; exact H3]|].
  destruct (String.eqb_spec "Élite" (tier_label sc)) as [H4|H4];
    [eexists; split; [reflexivity|]; split; [set_solver|left; exact H4]|].
  eexists; split; [reflexivity|]; split; [set_solver|right].
  split; [|reflexivity].
  intros r Hr.
  repeat (apply elem_of_cons in Hr as [-> | Hr]; [assumption|]).
  inversion Hr.
Qed.

End ActiveTierFacts.

Section LeaderboardFacts.

Import Session Leaderboard.

(** X14. The leaderboard shows every entry exactly once when it has at
    least three: the second, the first and the third on the podium, the
    others below in their order.  With one or two entries it shows none of
    them, neither podium nor list. *)
Theorem leaderboard_all_or_nothing p :
  ((3 <= length (entries p))%nat ->
     shown p ≡ₚ entries p
     /\ exists first second third others,
          entries p = first :: second :: third :: others
          /\ podium p = [second; first; third] /\ rest p = others)
  /\ ((length (entries p) < 3)%nat -> shown p = []).
Proof.
  unfold shown, podium, top3, rest.
  destruct (entries p) as [|e1 [|e2 [|e3 others]]]; cbn;
    (split; [intros Hlen; try lia | intros Hlen; try lia; try reflexivity]).
  split.
  - rewrite take_0. cbn. rewrite drop_0.
    apply Permutation_swap.
  - exists e1, e2, e3, others. rewrite take_0, drop_0. repeat split.
Qed.

Lemma leaderboard_all_or_nothing_witness :
  shown {| entries := FALLBACK; loading := false |}
  ≡ₚ FALLBACK.
Proof.
  exact (proj1 (proj1 (leaderboard_all_or_nothing
                         {| entries := FALLBACK; loading := false |})
                  ltac:(cbn; lia))).
Defined.

(** X15. Loading the leaderboard never leaves it without entries: the
    backend's list replaces the entries only when it is not empty, and an
    empty answer or a failure keeps the ones shown.  A non-empty answer of
    fewer than three entries is taken as it is, and then the page shows no
    entry at all. *)
Theorem leaderboard_load_keeps_entries answer p :
  (entries p <> [] -> entries (load answer p) <> [])
  /\ loading (load answer p) = false
  /\ match answer with
     | Ok (e :: more) =>
         entries (load answer p) = e :: more
         /\ ((length more < 2)%nat -> shown (load answer p) = [])
     | _ => entries (load answer p) = entries p
     end.
Proof.
  unfold load. destruct answer as [[|e more]|err]; cbn; repeat split; auto.
  intros Hlen.
  destruct more as [|e2 [|e3 more]]; cbn in *; try reflexivity; lia.
Qed.

Lemma leaderboard_load_keeps_entries_witness :
  entries (load (Ok []) initial) <> [].
Proof.
  apply (proj1 (leaderboard_load_keeps_entries (Ok []) initial)).
  discriminate.
Defined.

Lemma prefix_substring n s : String.prefix (String.substring 0 n s) s = true.
Proof.
  revert n. induction s as [|c s IH]; intros [|n]; cbn; try reflexivity.
  destruct (Ascii.ascii_dec c c) as [_|Hne]; [apply IH|congruence].
Qed.

Lemma includes_prefix n s : includes s (String.substring 0 n s) = true.
Proof.
  destruct s; cbn -[String.prefix String.substring];
    rewrite prefix_substring; reflexivity.
Qed.

(** X16. On the leaderboard a user is recognised under their own display
    name: [isSelf] holds of the session's display name itself whenever
    that name is not empty, and of no name at all when the session has no
    display name or an empty one. *)
Theorem isSelf_own_name s :
  match displayName s with
  | Some d =>
      if String.eqb d "" then forall name, isSelf s name = false
      else isSelf s d = true
  | None => forall name, isSelf s name = false
  end.
Proof.
  unfold isSelf, truthy_string.
  destruct (displayName s) as [d|]; [|reflexivity].
  destruct (String.eqb d ""); cbn; [reflexivity|].
  unfold slice. apply includes_prefix.
Qed.

End LeaderboardFacts.

Section CreditFlowFacts.

Import Session Credit CreditFlow.






End CreditFlowFacts.
